(** * FileSource channel (plugins/channeltx/filesource/filesource.cpp)

    A shallow embedding of the control side of the FileSource transmit
    channel: the message handler, the settings swap, the filter-chain
    selector validation, the frequency-offset computation, settings
    restoration and the elapsed-time part of the channel report.

    Conventions.
    - C++ integers are [Z] values; every place where the C++ type wraps
      or converts is written out with the functions of [Module Int].
    - A finite [double] is a rational number, so [double] values are [Q];
      the products and sums formed here are taken exactly.
    - Message queues are lists, oldest message first; [push] appends.
    - A nullable pointer to a queue is an [option].
    - [qDebug] tracing is not modelled. *)

From Stdlib Require Import ZArith QArith Lqa Lia List String Ascii Bool.
Import ListNotations.

Local Open Scope Z_scope.

(** ** Machine integers *)

Module Int.

(** [unsigned int] and [uint32_t]: arithmetic modulo 2^32. *)
Definition wrap32 (x : Z) : Z := x mod 2 ^ 32.

(** [quint64]: arithmetic modulo 2^64. *)
Definition wrap64 (x : Z) : Z := x mod 2 ^ 64.

(** Conversion to [qint64] (two's complement). *)
Definition signed64 (x : Z) : Z := (x + 2 ^ 63) mod 2 ^ 64 - 2 ^ 63.

(** Conversion to [int] (two's complement). *)
Definition signed32 (x : Z) : Z := (x + 2 ^ 31) mod 2 ^ 32 - 2 ^ 31.

(** Does [x] fit a [qint64]? *)
Definition fits64 (x : Z) : bool := (- 2 ^ 63 <=? x) && (x <? 2 ^ 63).

(** Unsigned division; dividing by zero is a fault. *)
Definition udiv (a b : Z) : option Z :=
  if b =? 0 then None else Some (a / b).

(** Signed 64-bit multiplication; overflow is undefined behaviour in C++
    and a fault here. *)
Definition smul64 (a b : Z) : option Z :=
  if fits64 (a * b) then Some (a * b) else None.

End Int.

(** Sequencing of fallible steps. *)
Definition bind {A B : Type} (x : option A) (f : A -> option B) : option B :=
  match x with
  | Some a => f a
  | None => None
  end.

Notation "x <- e ;; k" := (bind e (fun x => k))
  (at level 61, e at next level, right associativity).

(** ** Settings snapshot

    The fields are those [FileSource] reads and writes.  [m_log2Interp]
    and [m_filterChainHash] are compared against [unsigned int] values
    in [validateFilterChainHash], so they are 32-bit unsigned values:
    integers in [0, 2^32). *)

Record FileSourceSettings : Type := mkSettings {
  m_fileName : string;
  m_loop : bool;
  m_log2Interp : Z;
  m_filterChainHash : Z;
  m_gainDB : Z;
  m_rgbColor : Z;
  m_title : string;
  m_useReverseAPI : bool;
  m_reverseAPIAddress : string;
  m_reverseAPIPort : Z;
  m_reverseAPIDeviceIndex : Z;
  m_reverseAPIChannelIndex : Z
}.

Definition set_fileName (s : FileSourceSettings) (v : string) : FileSourceSettings :=
  mkSettings v (m_loop s) (m_log2Interp s) (m_filterChainHash s) (m_gainDB s)
    (m_rgbColor s) (m_title s) (m_useReverseAPI s) (m_reverseAPIAddress s)
    (m_reverseAPIPort s) (m_reverseAPIDeviceIndex s) (m_reverseAPIChannelIndex s).

Definition set_loop (s : FileSourceSettings) (v : bool) : FileSourceSettings :=
  mkSettings (m_fileName s) v (m_log2Interp s) (m_filterChainHash s) (m_gainDB s)
    (m_rgbColor s) (m_title s) (m_useReverseAPI s) (m_reverseAPIAddress s)
    (m_reverseAPIPort s) (m_reverseAPIDeviceIndex s) (m_reverseAPIChannelIndex s).

Definition set_log2Interp (s : FileSourceSettings) (v : Z) : FileSourceSettings :=
  mkSettings (m_fileName s) (m_loop s) v (m_filterChainHash s) (m_gainDB s)
    (m_rgbColor s) (m_title s) (m_useReverseAPI s) (m_reverseAPIAddress s)
    (m_reverseAPIPort s) (m_reverseAPIDeviceIndex s) (m_reverseAPIChannelIndex s).

Definition set_filterChainHash (s : FileSourceSettings) (v : Z) : FileSourceSettings :=
  mkSettings (m_fileName s) (m_loop s) (m_log2Interp s) v (m_gainDB s)
    (m_rgbColor s) (m_title s) (m_useReverseAPI s) (m_reverseAPIAddress s)
    (m_reverseAPIPort s) (m_reverseAPIDeviceIndex s) (m_reverseAPIChannelIndex s).

Definition set_gainDB (s : FileSourceSettings) (v : Z) : FileSourceSettings :=
  mkSettings (m_fileName s) (m_loop s) (m_log2Interp s) (m_filterChainHash s) v
    (m_rgbColor s) (m_title s) (m_useReverseAPI s) (m_reverseAPIAddress s)
    (m_reverseAPIPort s) (m_reverseAPIDeviceIndex s) (m_reverseAPIChannelIndex s).

Definition set_rgbColor (s : FileSourceSettings) (v : Z) : FileSourceSettings :=
  mkSettings (m_fileName s) (m_loop s) (m_log2Interp s) (m_filterChainHash s) (m_gainDB s)
    v (m_title s) (m_useReverseAPI s) (m_reverseAPIAddress s)
    (m_reverseAPIPort s) (m_reverseAPIDeviceIndex s) (m_reverseAPIChannelIndex s).

Definition set_title (s : FileSourceSettings) (v : string) : FileSourceSettings :=
  mkSettings (m_fileName s) (m_loop s) (m_log2Interp s) (m_filterChainHash s) (m_gainDB s)
    (m_rgbColor s) v (m_useReverseAPI s) (m_reverseAPIAddress s)
    (m_reverseAPIPort s) (m_reverseAPIDeviceIndex s) (m_reverseAPIChannelIndex s).

Definition set_useReverseAPI (s : FileSourceSettings) (v : bool) : FileSourceSettings :=
  mkSettings (m_fileName s) (m_loop s) (m_log2Interp s) (m_filterChainHash s) (m_gainDB s)
    (m_rgbColor s) (m_title s) v (m_reverseAPIAddress s)
    (m_reverseAPIPort s) (m_reverseAPIDeviceIndex s) (m_reverseAPIChannelIndex s).

Definition set_reverseAPIAddress (s : FileSourceSettings) (v : string) : FileSourceSettings :=
  mkSettings (m_fileName s) (m_loop s) (m_log2Interp s) (m_filterChainHash s) (m_gainDB s)
    (m_rgbColor s) (m_title s) (m_useReverseAPI s) v
    (m_reverseAPIPort s) (m_reverseAPIDeviceIndex s) (m_reverseAPIChannelIndex s).

Definition set_reverseAPIPort (s : FileSourceSettings) (v : Z) : FileSourceSettings :=
  mkSettings (m_fileName s) (m_loop s) (m_log2Interp s) (m_filterChainHash s) (m_gainDB s)
    (m_rgbColor s) (m_title s) (m_useReverseAPI s) (m_reverseAPIAddress s)
    v (m_reverseAPIDeviceIndex s) (m_reverseAPIChannelIndex s).

Definition set_reverseAPIDeviceIndex (s : FileSourceSettings) (v : Z) : FileSourceSettings :=
  mkSettings (m_fileName s) (m_loop s) (m_log2Interp s) (m_filterChainHash s) (m_gainDB s)
    (m_rgbColor s) (m_title s) (m_useReverseAPI s) (m_reverseAPIAddress s)
    (m_reverseAPIPort s) v (m_reverseAPIChannelIndex s).

Definition set_reverseAPIChannelIndex (s : FileSourceSettings) (v : Z) : FileSourceSettings :=
  mkSettings (m_fileName s) (m_loop s) (m_log2Interp s) (m_filterChainHash s) (m_gainDB s)
    (m_rgbColor s) (m_title s) (m_useReverseAPI s) (m_reverseAPIAddress s)
    (m_reverseAPIPort s) (m_reverseAPIDeviceIndex s) v.

(** ** validateFilterChainHash (filesource.cpp, lines 257-266) *)

(** The loop [for (i = 0; i < m_log2Interp; i++) s *= 3;] on an
    [unsigned int] accumulator: [n] iterations starting from [s]. *)
Fixpoint pow3_loop (n : nat) (s : Z) : Z :=
  match n with
  | O => s
  | S n' => pow3_loop n' (Int.wrap32 (s * 3))
  end.

Definition validateFilterChainHash (settings : FileSourceSettings) : FileSourceSettings :=
  let s := pow3_loop (Z.to_nat (m_log2Interp settings)) 1 in
  set_filterChainHash settings
    (if m_filterChainHash settings >=? s
     then Int.wrap32 (s - 1)
     else m_filterChainHash settings).

(** ** webapiUpdateChannelSettings (lines 310-349) *)

(** The fields of the REST settings object that the update reads.  The
    generated getters return [qint32]; strings come through pointers
    that the update dereferences. *)
Record SWGFileSourceSettings : Type := mkSWG {
  swg_log2Interp : Z;
  swg_filterChainHash : Z;
  swg_rgbColor : Z;
  swg_title : string;
  swg_gainDb : Z;
  swg_useReverseApi : Z;
  swg_reverseApiAddress : string;
  swg_reverseApiPort : Z;
  swg_reverseApiDeviceIndex : Z;
  swg_reverseApiChannelIndex : Z
}.

(** [QStringList::contains]. *)
Definition contains (keys : list string) (k : string) : bool :=
  existsb (String.eqb k) keys.

(** One [if (keys.contains(k)) { ... }] step. *)
Definition onKey (keys : list string) (k : string)
    (f : FileSourceSettings -> FileSourceSettings) (s : FileSourceSettings)
    : FileSourceSettings :=
  if contains keys k then f s else s.

(** The two selector fields are 32-bit unsigned, so the [qint32] read is
    converted modulo 2^32.  The declared widths of the other numeric
    fields are in the settings header; their values are stored as read. *)
Definition webapiUpdateChannelSettings (settings : FileSourceSettings)
    (channelSettingsKeys : list string) (response : SWGFileSourceSettings)
    : FileSourceSettings :=
  let s1 := onKey channelSettingsKeys "log2Interp"
              (fun s => set_log2Interp s (Int.wrap32 (swg_log2Interp response))) settings in
  let s2 := onKey channelSettingsKeys "filterChainHash"
              (fun s => validateFilterChainHash
                          (set_filterChainHash s (Int.wrap32 (swg_filterChainHash response)))) s1 in
  let s3 := onKey channelSettingsKeys "rgbColor"
              (fun s => set_rgbColor s (swg_rgbColor response)) s2 in
  let s4 := onKey channelSettingsKeys "title"
              (fun s => set_title s (swg_title response)) s3 in
  let s5 := onKey channelSettingsKeys "gainDB"
              (fun s => set_gainDB s (swg_gainDb response)) s4 in
  let s6 := onKey channelSettingsKeys "useReverseAPI"
              (fun s => set_useReverseAPI s (negb (swg_useReverseApi response =? 0))) s5 in
  let s7 := onKey channelSettingsKeys "reverseAPIAddress"
              (fun s => set_reverseAPIAddress s (swg_reverseApiAddress response)) s6 in
  let s8 := onKey channelSettingsKeys "reverseAPIPort"
              (fun s => set_reverseAPIPort s (swg_reverseApiPort response)) s7 in
  let s9 := onKey channelSettingsKeys "reverseAPIDeviceIndex"
              (fun s => set_reverseAPIDeviceIndex s (swg_reverseApiDeviceIndex response)) s8 in
  onKey channelSettingsKeys "reverseAPIChannelIndex"
    (fun s => set_reverseAPIChannelIndex s (swg_reverseApiChannelIndex response)) s9.

(** ** Half-band filter-chain offset calculator *)

Module HBFilterChainConverter.

(** Modelled from the spec: [HBFilterChainConverter::getShiftFactor]
    (dsp/hbfilterchainconverter.h) is called by [FileSource] but its body
    is not part of the sources at hand.  Section 4.3: the selector code is
    read as a base-3 number with [stageCount] digits; a digit 0, 1 or 2
    means no shift, a positive shift or a negative shift for that stage. *)
Definition digitShift (d : Z) : Q :=
  if d =? 1 then 1%Q else if d =? 2 then (-1)%Q else 0%Q.

(** Modelled from the spec: the cascade absent from the sources.  Each
    stage contributes plus or minus 1/4 of its own output rate, and the
    contribution halves at each successive stage, so stage [k] of the
    cascade weighs 1/2^(k+2) of the final rate.  Digit order: the least
    significant digit is the stage with the largest contribution. *)
Fixpoint shiftStages (stages : nat) (code : Z) (weight : Q) : Q :=
  match stages with
  | O => 0%Q
  | S k => (digitShift (code mod 3) * weight
            + shiftStages k (code / 3) (weight * (1 # 2)))%Q
  end.

(** Modelled from the spec: [shiftFactor(stageCount, selectorCode)], the
    absent pure function of section 4.3; the contributions aggregate to
    one fraction of the final rate. *)
Definition getShiftFactor (log2 chainHash : Z) : Q :=
  shiftStages (Z.to_nat log2) chainHash (1 # 4).

End HBFilterChainConverter.

(** ** Time of day (Qt's [QTime])

    [QTime] belongs to the Qt library.  A valid time is the number of
    milliseconds since midnight; [addSecs] and [addMSecs] take an [int]
    and wrap around midnight; ["HH"], ["mm"], ["ss"] and ["zzz"] print
    with leading zeros. *)

Module QTime.

Definition MSECS_PER_DAY : Z := 86400000.
Definition SECS_PER_DAY : Z := 86400.

(** [QTime(0, 0, 0, 0)]. *)
Definition midnight : Z := 0.

Definition addMSecs (mds ms : Z) : Z :=
  if ms <? 0 then
    let negdays := Z.quot (MSECS_PER_DAY - ms) MSECS_PER_DAY in
    Z.rem (mds + ms + negdays * MSECS_PER_DAY) MSECS_PER_DAY
  else
    Z.rem (mds + ms) MSECS_PER_DAY.

Definition addSecs (mds s : Z) : Z :=
  addMSecs mds (Z.rem s SECS_PER_DAY * 1000).

Definition digit (d : Z) : string :=
  String (ascii_of_nat (48 + Z.to_nat (d mod 10))) EmptyString.

Definition pad2 (n : Z) : string := (digit (n / 10) ++ digit n)%string.

Definition pad3 (n : Z) : string :=
  (digit (n / 100) ++ digit (n / 10) ++ digit n)%string.

Definition hour (mds : Z) : Z := mds / 3600000.
Definition minute (mds : Z) : Z := (mds mod 3600000) / 60000.
Definition second (mds : Z) : Z := (mds / 1000) mod 60.
Definition msec (mds : Z) : Z := mds mod 1000.

(** [toString("HH:mm:ss.zzz")]. *)
Definition toString_ms (mds : Z) : string :=
  (pad2 (hour mds) ++ ":" ++ pad2 (minute mds) ++ ":" ++ pad2 (second mds)
   ++ "." ++ pad3 (msec mds))%string.

(** [toString("HH:mm:ss")]. *)
Definition toString_s (mds : Z) : string :=
  (pad2 (hour mds) ++ ":" ++ pad2 (minute mds) ++ ":" ++ pad2 (second mds))%string.

End QTime.

(** ** Elapsed time of the channel report (lines 390-407)

    [samplesCount] is a [quint64], [fileSampleRate] a [uint32_t], and the
    two results are [qint64].  The quotient is unsigned and is converted
    to the signed [t_sec]; [t_sec * fileSampleRate] is a signed product;
    the subtraction, the product by 1000 and the second division are
    unsigned again, and their result is converted to the signed [t_msec]. *)
Definition elapsed (samplesCount fileSampleRate : Z) : option (Z * Z) :=
  if fileSampleRate >? 0 then
    q <- Int.udiv samplesCount fileSampleRate ;;
    let t_sec := Int.signed64 q in
    p <- Int.smul64 t_sec fileSampleRate ;;
    let rest := Int.wrap64 (samplesCount - Int.wrap64 p) in
    m <- Int.udiv (Int.wrap64 (rest * 1000)) fileSampleRate ;;
    Some (t_sec, Int.signed64 m)
  else
    Some (0, 0).

(** [QTime t(0,0,0,0); t = t.addSecs(t_sec); t = t.addMSecs(t_msec);
    t.toString("HH:mm:ss.zzz")]; both arguments narrow to [int]. *)
Definition elapsedTimeString (t_sec t_msec : Z) : string :=
  let t := QTime.addSecs QTime.midnight (Int.signed32 t_sec) in
  let t := QTime.addMSecs t (Int.signed32 t_msec) in
  QTime.toString_ms t.

(** ** Messages

    One constructor per concrete message class that [FileSource] receives
    or sends; [OtherMessage] stands for any other class of the
    application.  [match] of a message class holds for exactly the
    messages built by that class. *)
Inductive Message : Type :=
| DSPSignalNotification (sampleRate centerFrequency : Z)
| MsgSampleRateNotification (sampleRate : Z)
| MsgConfigureFileSource (settings : FileSourceSettings) (force : bool)
| MsgConfigureFileSourceName (fileName : string)
| MsgConfigureFileSourceWork (working : bool)
| MsgConfigureFileSourceStreamTiming
| MsgConfigureFileSourceSeek (millis : Z)
| MsgReportFileSourceAcquisition
| Baseband_MsgConfigureFileSourceBaseband (settings : FileSourceSettings) (force : bool)
| Baseband_MsgConfigureFileSourceName (fileName : string)
| Baseband_MsgConfigureFileSourceWork (working : bool)
| Baseband_MsgConfigureFileSourceSeek (millis : Z)
| Report_MsgReportFileSourceStreamTiming (samplesCount : Z)
| OtherMessage (className : string).

(** The six kinds that [handleMessage] tests for. *)
Definition recognized (cmd : Message) : bool :=
  match cmd with
  | DSPSignalNotification _ _
  | MsgConfigureFileSource _ _
  | MsgConfigureFileSourceName _
  | MsgConfigureFileSourceWork _
  | MsgConfigureFileSourceSeek _
  | MsgConfigureFileSourceStreamTiming => true
  | _ => false
  end.

(** [MessageQueue::push]. *)
Definition push (q : list Message) (m : Message) : list Message := q ++ [m].

(** ** Reverse API request (webapiReverseSendSettings, lines 426-472)

    What the PATCH request carries: the four parts of the URL and the
    fields of the JSON body that were set.  The originator indices come
    from the channel's base class and are left out. *)
Record ReverseAPIRequest : Type := mkRequest {
  req_address : string;
  req_port : Z;
  req_deviceIndex : Z;
  req_channelIndex : Z;
  req_direction : Z;
  req_channelType : string;
  req_log2Interp : option Z;
  req_filterChainHash : option Z;
  req_gainDb : option Z;
  req_rgbColor : option Z;
  req_title : option string
}.

Definition whenSet {A : Type} (b : bool) (v : A) : option A :=
  if b then Some v else None.

(** The body is filled through the setters of the REST settings object,
    which take [qint32]: as in webapiFormatChannelSettings the two
    unsigned selector fields are converted to a signed value and the
    other numeric fields are passed as they are. *)
Definition webapiReverseSendSettings (channelSettingsKeys : list string)
    (settings : FileSourceSettings) (force : bool) : ReverseAPIRequest :=
  mkRequest
    (m_reverseAPIAddress settings)
    (m_reverseAPIPort settings)
    (m_reverseAPIDeviceIndex settings)
    (m_reverseAPIChannelIndex settings)
    1
    "FileSource"
    (whenSet (contains channelSettingsKeys "log2Interp" || force)
       (Int.signed32 (m_log2Interp settings)))
    (whenSet (contains channelSettingsKeys "filterChainHash" || force)
       (Int.signed32 (m_filterChainHash settings)))
    (whenSet (contains channelSettingsKeys "gainDB" || force) (m_gainDB settings))
    (whenSet (contains channelSettingsKeys "rgbColor" || force) (m_rgbColor settings))
    (whenSet (contains channelSettingsKeys "title" || force) (m_title settings)).

(** ** Component state *)

(** What [FileSource] reads from and sends to its baseband source. *)
Record FileSourceBaseband : Type := mkBaseband {
  bb_inputMessageQueue : list Message;
  bb_samplesCount : Z;
  bb_fileSampleRate : Z;
  bb_startingTimeStamp : Z;
  bb_recordLength : Z;
  bb_fileSampleSize : Z
}.

Definition bb_push (bb : FileSourceBaseband) (m : Message) : FileSourceBaseband :=
  mkBaseband (push (bb_inputMessageQueue bb) m) (bb_samplesCount bb)
    (bb_fileSampleRate bb) (bb_startingTimeStamp bb) (bb_recordLength bb)
    (bb_fileSampleSize bb).

(** [m_guiMessageQueue] is a pointer that may be null;
    [getMessageQueueToGUI()] returns the same pointer.
    [sentRequests] is not a member of the class: it collects, in order,
    the requests handed to the network manager. *)
Record FileSource : Type := mkFileSource {
  m_basebandSource : FileSourceBaseband;
  m_settings : FileSourceSettings;
  m_centerFrequency : Z;
  m_frequencyOffset : Q;
  m_basebandSampleRate : Z;
  m_linearGain : Q;
  m_inputMessageQueue : list Message;
  m_guiMessageQueue : option (list Message);
  sentRequests : list ReverseAPIRequest
}.

Definition set_basebandSource (st : FileSource) (v : FileSourceBaseband) : FileSource :=
  mkFileSource v (m_settings st) (m_centerFrequency st) (m_frequencyOffset st)
    (m_basebandSampleRate st) (m_linearGain st) (m_inputMessageQueue st)
    (m_guiMessageQueue st) (sentRequests st).

Definition set_settings (st : FileSource) (v : FileSourceSettings) : FileSource :=
  mkFileSource (m_basebandSource st) v (m_centerFrequency st) (m_frequencyOffset st)
    (m_basebandSampleRate st) (m_linearGain st) (m_inputMessageQueue st)
    (m_guiMessageQueue st) (sentRequests st).

Definition set_centerFrequency (st : FileSource) (v : Z) : FileSource :=
  mkFileSource (m_basebandSource st) (m_settings st) v (m_frequencyOffset st)
    (m_basebandSampleRate st) (m_linearGain st) (m_inputMessageQueue st)
    (m_guiMessageQueue st) (sentRequests st).

Definition set_frequencyOffset (st : FileSource) (v : Q) : FileSource :=
  mkFileSource (m_basebandSource st) (m_settings st) (m_centerFrequency st) v
    (m_basebandSampleRate st) (m_linearGain st) (m_inputMessageQueue st)
    (m_guiMessageQueue st) (sentRequests st).

Definition set_basebandSampleRate (st : FileSource) (v : Z) : FileSource :=
  mkFileSource (m_basebandSource st) (m_settings st) (m_centerFrequency st)
    (m_frequencyOffset st) v (m_linearGain st) (m_inputMessageQueue st)
    (m_guiMessageQueue st) (sentRequests st).

Definition set_linearGain (st : FileSource) (v : Q) : FileSource :=
  mkFileSource (m_basebandSource st) (m_settings st) (m_centerFrequency st)
    (m_frequencyOffset st) (m_basebandSampleRate st) v (m_inputMessageQueue st)
    (m_guiMessageQueue st) (sentRequests st).

Definition set_inputMessageQueue (st : FileSource) (v : list Message) : FileSource :=
  mkFileSource (m_basebandSource st) (m_settings st) (m_centerFrequency st)
    (m_frequencyOffset st) (m_basebandSampleRate st) (m_linearGain st) v
    (m_guiMessageQueue st) (sentRequests st).

Definition set_guiMessageQueue (st : FileSource) (v : option (list Message)) : FileSource :=
  mkFileSource (m_basebandSource st) (m_settings st) (m_centerFrequency st)
    (m_frequencyOffset st) (m_basebandSampleRate st) (m_linearGain st)
    (m_inputMessageQueue st) v (sentRequests st).

Definition set_networkRequests (st : FileSource) (v : list ReverseAPIRequest) : FileSource :=
  mkFileSource (m_basebandSource st) (m_settings st) (m_centerFrequency st)
    (m_frequencyOffset st) (m_basebandSampleRate st) (m_linearGain st)
    (m_inputMessageQueue st) (m_guiMessageQueue st) v.

(** [m_basebandSource->getInputMessageQueue()->push(msg)]. *)
Definition pushToBaseband (st : FileSource) (m : Message) : FileSource :=
  set_basebandSource st (bb_push (m_basebandSource st) m).

(** [if (queue) { queue->push(msg); }] on the GUI queue. *)
Definition pushToGUI (st : FileSource) (m : Message) : FileSource :=
  match m_guiMessageQueue st with
  | Some q => set_guiMessageQueue st (Some (push q m))
  | None => st
  end.

(** ** Channel report (webapiFormatChannelReport, lines 388-424)

    The fields whose value is decided in this file.  The absolute time
    goes through [QDateTime] and the local time zone, and the channel
    power through floating-point logarithms; both are left out. *)
Record FileSourceReport : Type := mkReport {
  rep_elapsedTime : string;
  rep_durationTime : string;
  rep_fileName : string;
  rep_fileSampleRate : Z;
  rep_fileSampleSize : Z;
  rep_sampleRate : Z
}.

(** The getters of the baseband source that the report reads. *)
Definition getSamplesCount (st : FileSource) : Z := bb_samplesCount (m_basebandSource st).
Definition getFileSampleRate (st : FileSource) : Z := bb_fileSampleRate (m_basebandSource st).

Definition webapiFormatChannelReport (st : FileSource) : option FileSourceReport :=
  let bb := m_basebandSource st in
  t <- elapsed (getSamplesCount st) (getFileSampleRate st) ;;
  Some (mkReport
          (elapsedTimeString (fst t) (snd t))
          (QTime.toString_s (QTime.addSecs QTime.midnight (Int.signed32 (bb_recordLength bb))))
          (m_fileName (m_settings st))
          (bb_fileSampleRate bb)
          (bb_fileSampleSize bb)
          (m_basebandSampleRate st)).

(** ** webapiFormatChannelSettings (lines 362-386) *)

(** The setters of the REST settings object. *)
Definition setLog2Interp (r : SWGFileSourceSettings) (v : Z) : SWGFileSourceSettings :=
  mkSWG v (swg_filterChainHash r) (swg_rgbColor r) (swg_title r) (swg_gainDb r)
    (swg_useReverseApi r) (swg_reverseApiAddress r) (swg_reverseApiPort r)
    (swg_reverseApiDeviceIndex r) (swg_reverseApiChannelIndex r).

Definition setFilterChainHash (r : SWGFileSourceSettings) (v : Z) : SWGFileSourceSettings :=
  mkSWG (swg_log2Interp r) v (swg_rgbColor r) (swg_title r) (swg_gainDb r)
    (swg_useReverseApi r) (swg_reverseApiAddress r) (swg_reverseApiPort r)
    (swg_reverseApiDeviceIndex r) (swg_reverseApiChannelIndex r).

Definition setRgbColor (r : SWGFileSourceSettings) (v : Z) : SWGFileSourceSettings :=
  mkSWG (swg_log2Interp r) (swg_filterChainHash r) v (swg_title r) (swg_gainDb r)
    (swg_useReverseApi r) (swg_reverseApiAddress r) (swg_reverseApiPort r)
    (swg_reverseApiDeviceIndex r) (swg_reverseApiChannelIndex r).

Definition setTitle (r : SWGFileSourceSettings) (v : string) : SWGFileSourceSettings :=
  mkSWG (swg_log2Interp r) (swg_filterChainHash r) (swg_rgbColor r) v (swg_gainDb r)
    (swg_useReverseApi r) (swg_reverseApiAddress r) (swg_reverseApiPort r)
    (swg_reverseApiDeviceIndex r) (swg_reverseApiChannelIndex r).

Definition setGainDb (r : SWGFileSourceSettings) (v : Z) : SWGFileSourceSettings :=
  mkSWG (swg_log2Interp r) (swg_filterChainHash r) (swg_rgbColor r) (swg_title r) v
    (swg_useReverseApi r) (swg_reverseApiAddress r) (swg_reverseApiPort r)
    (swg_reverseApiDeviceIndex r) (swg_reverseApiChannelIndex r).

Definition setUseReverseApi (r : SWGFileSourceSettings) (v : Z) : SWGFileSourceSettings :=
  mkSWG (swg_log2Interp r) (swg_filterChainHash r) (swg_rgbColor r) (swg_title r)
    (swg_gainDb r) v (swg_reverseApiAddress r) (swg_reverseApiPort r)
    (swg_reverseApiDeviceIndex r) (swg_reverseApiChannelIndex r).

Definition setReverseApiAddress (r : SWGFileSourceSettings) (v : string) : SWGFileSourceSettings :=
  mkSWG (swg_log2Interp r) (swg_filterChainHash r) (swg_rgbColor r) (swg_title r)
    (swg_gainDb r) (swg_useReverseApi r) v (swg_reverseApiPort r)
    (swg_reverseApiDeviceIndex r) (swg_reverseApiChannelIndex r).

Definition setReverseApiPort (r : SWGFileSourceSettings) (v : Z) : SWGFileSourceSettings :=
  mkSWG (swg_log2Interp r) (swg_filterChainHash r) (swg_rgbColor r) (swg_title r)
    (swg_gainDb r) (swg_useReverseApi r) (swg_reverseApiAddress r) v
    (swg_reverseApiDeviceIndex r) (swg_reverseApiChannelIndex r).

Definition setReverseApiDeviceIndex (r : SWGFileSourceSettings) (v : Z) : SWGFileSourceSettings :=
  mkSWG (swg_log2Interp r) (swg_filterChainHash r) (swg_rgbColor r) (swg_title r)
    (swg_gainDb r) (swg_useReverseApi r) (swg_reverseApiAddress r) (swg_reverseApiPort r)
    v (swg_reverseApiChannelIndex r).

Definition setReverseApiChannelIndex (r : SWGFileSourceSettings) (v : Z) : SWGFileSourceSettings :=
  mkSWG (swg_log2Interp r) (swg_filterChainHash r) (swg_rgbColor r) (swg_title r)
    (swg_gainDb r) (swg_useReverseApi r) (swg_reverseApiAddress r) (swg_reverseApiPort r)
    (swg_reverseApiDeviceIndex r) v.

(** The setters take [qint32], so the two unsigned selector fields are
    converted to a signed value; the other numeric fields are passed as
    they are, as in the update.  A title or address pointer of the
    response is either assigned through or replaced by a new string: both
    branches leave the settings' string in the response. *)
Definition webapiFormatChannelSettings (response : SWGFileSourceSettings)
    (settings : FileSourceSettings) : SWGFileSourceSettings :=
  let r := setLog2Interp response (Int.signed32 (m_log2Interp settings)) in
  let r := setFilterChainHash r (Int.signed32 (m_filterChainHash settings)) in
  let r := setGainDb r (m_gainDB settings) in
  let r := setRgbColor r (m_rgbColor settings) in
  let r := setTitle r (m_title settings) in
  let r := setUseReverseApi r (if m_useReverseAPI settings then 1 else 0) in
  let r := setReverseApiAddress r (m_reverseAPIAddress settings) in
  let r := setReverseApiPort r (m_reverseAPIPort settings) in
  let r := setReverseApiDeviceIndex r (m_reverseAPIDeviceIndex settings) in
  setReverseApiChannelIndex r (m_reverseAPIChannelIndex settings).

(** The ten keys that webapiUpdateChannelSettings looks for. *)
Definition settingsKeys : list string :=
  ["log2Interp"; "filterChainHash"; "rgbColor"; "title"; "gainDB";
   "useReverseAPI"; "reverseAPIAddress"; "reverseAPIPort";
   "reverseAPIDeviceIndex"; "reverseAPIChannelIndex"]%string.

(** ** webapiSettingsGet (lines 274-283) and webapiSettingsPutPatch (285-308) *)

(** [fresh] is the new response object after its [init()]; the result is
    the status code and the response. *)
Definition webapiSettingsGet (fresh : SWGFileSourceSettings) (st : FileSource)
    : Z * SWGFileSourceSettings :=
  (200, webapiFormatChannelSettings fresh (m_settings st)).

(** The status code, the response as it is left, and the new state. *)
Definition webapiSettingsPutPatch (force : bool) (channelSettingsKeys : list string)
    (response : SWGFileSourceSettings) (st : FileSource)
    : Z * SWGFileSourceSettings * FileSource :=
  let settings := webapiUpdateChannelSettings (m_settings st) channelSettingsKeys response in
  let st := set_inputMessageQueue st
              (push (m_inputMessageQueue st) (MsgConfigureFileSource settings force)) in
  let st := pushToGUI st (MsgConfigureFileSource settings force) in
  (200, webapiFormatChannelSettings response settings, st).

(** ** Sample values used to exercise the theorems *)

(** Conversion of a [double] to an integer type: truncation toward zero. *)
Definition truncate (x : Q) : Q := inject_Z (Z.quot (Qnum x) (Zpos (Qden x))).

(** A stand-in for the decibel conversion. *)
Definition sampleGain (dB : Z) : Q := inject_Z dB.

Definition sampleSettings : FileSourceSettings :=
  mkSettings "test.sdriq" false 2 5 (-10) 0 "File source" false "127.0.0.1" 8888 0 0.

Definition sampleBaseband : FileSourceBaseband :=
  mkBaseband [] 96000 48000 0 10 16.

Definition sampleState : FileSource :=
  mkFileSource sampleBaseband sampleSettings 435000000 0%Q 48000 0%Q [] (Some []) [].


(** Settings that use the reverse API, and a later edit of them that
    touches the stage count and the title only. *)
Definition reverseSettings : FileSourceSettings := set_useReverseAPI sampleSettings true.

Definition editedSettings : FileSourceSettings :=
  set_title (set_log2Interp reverseSettings 3) "Edited".

Definition reverseState : FileSource := set_settings sampleState reverseSettings.

Definition sampleResponse : SWGFileSourceSettings :=
  mkSWG 1 7 255 "Patched" (-3) 1 "10.0.0.1" 8091 1 2.

(** ** The component's operations *)

Section FileSourceOperations.

(** [CalcDb::powerFromdB] (util/db.h): a floating-point power of ten. *)
Variable powerFromdB : Z -> Q.

(** Conversion of the [double] product to the declared type of
    [m_frequencyOffset], which the class header fixes. *)
Variable storeOffset : Q -> Q.

(** [FileSourceSettings::deserialize]: from the bytes and the settings it
    is called on, the settings it leaves behind and its result. *)
Variable settingsDeserialize :
  list Byte.byte -> FileSourceSettings -> FileSourceSettings * bool.

(** [FileSourceSettings::resetToDefaults]. *)
Variable resetToDefaults : FileSourceSettings -> FileSourceSettings.

(** calculateFrequencyOffset (lines 268-272). *)
Definition calculateFrequencyOffset (st : FileSource) : FileSource :=
  let shiftFactor :=
    HBFilterChainConverter.getShiftFactor
      (m_log2Interp (m_settings st)) (m_filterChainHash (m_settings st)) in
  set_frequencyOffset st
    (storeOffset (inject_Z (m_basebandSampleRate st) * shiftFactor)%Q).

(** *** The call to the offset calculator, with its effects explicit

    [HBFilterChainConverter::getShiftFactor] is a static function of
    another file.  Besides its two arguments, passed by value, such a
    callee could read and write state of its own.  [External] is that
    state: a callee takes it and hands it back next to its result. *)
Variable External : Type.

Definition ShiftFactorCall : Type := Z -> Z -> External -> Q * External.

(** calculateFrequencyOffset (lines 268-272) around an arbitrary callee. *)
Definition calculateFrequencyOffsetCalling (getShiftFactor : ShiftFactorCall)
    (st : FileSource) (e : External) : FileSource * External :=
  let (shiftFactor, e') :=
    getShiftFactor (m_log2Interp (m_settings st)) (m_filterChainHash (m_settings st)) e in
  (set_frequencyOffset st
     (storeOffset (inject_Z (m_basebandSampleRate st) * shiftFactor)%Q),
   e').

(** Modelled from the spec: what section 8 asks of the absent function,
    deterministic and pure, that is the same inputs give the same output
    and there are no side effects.  The output does not depend on the
    external state, and the external state comes back as it went in. *)
Definition deterministicAndPure (f : ShiftFactorCall) : Prop :=
  (forall log2 chainHash e e', fst (f log2 chainHash e) = fst (f log2 chainHash e'))
  /\ (forall log2 chainHash e, snd (f log2 chainHash e) = e).


(** [setCenterFrequency] is an inline member of the class header; it is
    taken to record its argument and nothing else. *)
Definition setCenterFrequency (st : FileSource) (centerFrequency : Z) : FileSource :=
  set_centerFrequency st centerFrequency.

(** The three tests of lines 229-239 and the key list they build. *)
Definition loopChanged (old new : FileSourceSettings) (force : bool) : bool :=
  negb (Bool.eqb (m_loop old) (m_loop new)) || force.

Definition fileNameChanged (old new : FileSourceSettings) (force : bool) : bool :=
  negb (String.eqb (m_fileName old) (m_fileName new)) || force.

Definition gainDBChanged (old new : FileSourceSettings) (force : bool) : bool :=
  negb (m_gainDB old =? m_gainDB new) || force.

Definition reverseAPIKeys (old new : FileSourceSettings) (force : bool) : list string :=
  let keys := [] in
  let keys := if loopChanged old new force then keys ++ ["loop"%string] else keys in
  let keys := if fileNameChanged old new force then keys ++ ["fileName"%string] else keys in
  if gainDBChanged old new force then keys ++ ["gainDB"%string] else keys.

(** Lines 246-250. *)
Definition fullUpdate (old new : FileSourceSettings) : bool :=
  (negb (Bool.eqb (m_useReverseAPI old) (m_useReverseAPI new)) && m_useReverseAPI new)
  || negb (String.eqb (m_reverseAPIAddress old) (m_reverseAPIAddress new))
  || negb (m_reverseAPIPort old =? m_reverseAPIPort new)
  || negb (m_reverseAPIDeviceIndex old =? m_reverseAPIDeviceIndex new)
  || negb (m_reverseAPIChannelIndex old =? m_reverseAPIChannelIndex new).

(** applySettings (lines 210-255). *)
Definition applySettings (settings : FileSourceSettings) (force : bool)
    (st : FileSource) : FileSource :=
  let old := m_settings st in
  let keys := reverseAPIKeys old settings force in
  let st := if gainDBChanged old settings force
            then set_linearGain st (powerFromdB (m_gainDB settings))
            else st in
  let st := pushToBaseband st (Baseband_MsgConfigureFileSourceBaseband settings force) in
  let st := if m_useReverseAPI settings
            then set_networkRequests st
                   (sentRequests st ++
                    [webapiReverseSendSettings keys settings (fullUpdate old settings || force)])
            else st in
  set_settings st settings.

(** handleMessage (lines 110-185): the result and the state it leaves. *)
Definition handleMessage (cmd : Message) (st : FileSource) : bool * FileSource :=
  match cmd with
  | DSPSignalNotification sampleRate centerFrequency =>
      let st := set_basebandSampleRate st sampleRate in
      let st := calculateFrequencyOffset st in
      let st := setCenterFrequency st centerFrequency in
      let st := pushToBaseband st (DSPSignalNotification sampleRate centerFrequency) in
      let st := pushToGUI st (MsgSampleRateNotification sampleRate) in
      (true, st)
  | MsgConfigureFileSource settings force =>
      (true, applySettings settings force st)
  | MsgConfigureFileSourceName fileName =>
      (true, pushToBaseband st (Baseband_MsgConfigureFileSourceName fileName))
  | MsgConfigureFileSourceWork working =>
      (true, pushToBaseband st (Baseband_MsgConfigureFileSourceWork working))
  | MsgConfigureFileSourceSeek millis =>
      (true, pushToBaseband st (Baseband_MsgConfigureFileSourceSeek millis))
  | MsgConfigureFileSourceStreamTiming =>
      (true, pushToGUI st
               (Report_MsgReportFileSourceStreamTiming
                  (bb_samplesCount (m_basebandSource st))))
  | _ => (false, st)
  end.

(** deserialize (lines 192-208). *)
Definition deserialize (data : list Byte.byte) (st : FileSource) : bool * FileSource :=
  let (restored, ok) := settingsDeserialize data (m_settings st) in
  if ok then
    let st := set_settings st restored in
    let msg := MsgConfigureFileSource (m_settings st) true in
    (true, set_inputMessageQueue st (push (m_inputMessageQueue st) msg))
  else
    let st := set_settings st (resetToDefaults restored) in
    let msg := MsgConfigureFileSource (m_settings st) true in
    (false, set_inputMessageQueue st (push (m_inputMessageQueue st) msg)).

End FileSourceOperations.

(** A callee that is not pure: it returns its call count and counts the
    call. *)
Definition countingCall : ShiftFactorCall Z :=
  fun _ _ count => (inject_Z count, count + 1).

(** * Properties *)

(** ** Machine integers *)

Lemma wrap32_range x : 0 <= Int.wrap32 x < 2 ^ 32.
Proof. unfold Int.wrap32. apply Z.mod_pos_bound. lia. Qed.

Lemma wrap32_small x : 0 <= x < 2 ^ 32 -> Int.wrap32 x = x.
Proof. intros H. unfold Int.wrap32. now apply Z.mod_small. Qed.

Lemma wrap64_small x : 0 <= x < 2 ^ 64 -> Int.wrap64 x = x.
Proof. intros H. unfold Int.wrap64. now apply Z.mod_small. Qed.

Lemma signed64_small x : - 2 ^ 63 <= x < 2 ^ 63 -> Int.signed64 x = x.
Proof. intros H. unfold Int.signed64. rewrite Z.mod_small; lia. Qed.

Lemma wrap32_odd x : Z.odd x = true -> Z.odd (Int.wrap32 x) = true.
Proof.
  intros H. unfold Int.wrap32.
  rewrite (Z.div_mod x (2 ^ 32)) in H by lia.
  replace (2 ^ 32 * (x / 2 ^ 32)) with (2 * (2 ^ 31 * (x / 2 ^ 32))) in H by lia.
  rewrite Z.add_comm, Z.odd_add_mul_2 in H. exact H.
Qed.

(** ** The accumulator of validateFilterChainHash *)

Lemma pow3_loop_odd n : forall s,
  Z.odd s = true -> 0 <= s < 2 ^ 32 ->
  Z.odd (pow3_loop n s) = true /\ 0 <= pow3_loop n s < 2 ^ 32.
Proof.
  induction n as [|n IH]; intros s Hodd Hr; simpl.
  - split; assumption.
  - apply IH.
    + apply wrap32_odd. rewrite Z.odd_mul, Hodd. reflexivity.
    + apply wrap32_range.
Qed.

(** The accumulator is never zero: a power of three stays odd modulo 2^32. *)
Lemma pow3_loop_pos n : 1 <= pow3_loop n 1 < 2 ^ 32.
Proof.
  destruct (pow3_loop_odd n 1) as [Ho Hr]; [reflexivity | lia |].
  destruct (Z.eq_dec (pow3_loop n 1) 0) as [E|E].
  - rewrite E in Ho. discriminate.
  - lia.
Qed.

Lemma pow3_loop_mod n : forall s,
  pow3_loop n s = (s * 3 ^ Z.of_nat n) mod 2 ^ 32 \/ n = O.
Proof.
  induction n as [|n IH]; intros s.
  - now right.
  - left. simpl pow3_loop.
    destruct (IH (Int.wrap32 (s * 3))) as [E | E].
    + rewrite E. unfold Int.wrap32.
      rewrite Z.mul_mod_idemp_l by lia.
      f_equal. rewrite Nat2Z.inj_succ, Z.pow_succ_r by lia. ring.
    + subst n. cbn [pow3_loop]. unfold Int.wrap32. f_equal; lia.
Qed.

(** The loop computes 3^n modulo 2^32. *)
Lemma pow3_loop_closed n : pow3_loop n 1 = 3 ^ Z.of_nat n mod 2 ^ 32.
Proof.
  destruct (pow3_loop_mod n 1) as [E | E].
  - rewrite E. f_equal. lia.
  - subst n. reflexivity.
Qed.

Lemma pow3_loop_le n : pow3_loop n 1 <= 3 ^ Z.of_nat n.
Proof.
  rewrite pow3_loop_closed. apply Z.mod_le; [apply Z.pow_nonneg|]; lia.
Qed.

(** Up to twenty stages the power fits 32 bits and the loop is exact. *)
Lemma pow3_loop_exact n : (n <= 20)%nat -> pow3_loop n 1 = 3 ^ Z.of_nat n.
Proof.
  intros H. rewrite pow3_loop_closed. apply Z.mod_small. split.
  - apply Z.pow_nonneg. lia.
  - apply Z.le_lt_trans with (3 ^ 20); [|reflexivity].
    apply Z.pow_le_mono_r; lia.
Qed.

(** ** validateFilterChainHash *)

(** The selector after validation, in terms of the accumulator. *)
Lemma validateFilterChainHash_hash settings :
  let s := pow3_loop (Z.to_nat (m_log2Interp settings)) 1 in
  m_filterChainHash (validateFilterChainHash settings) =
    if m_filterChainHash settings >=? s then s - 1 else m_filterChainHash settings.
Proof.
  cbv zeta. unfold validateFilterChainHash. cbn [m_filterChainHash set_filterChainHash].
  destruct (m_filterChainHash settings >=? _); [|reflexivity].
  apply wrap32_small. pose proof (pow3_loop_pos (Z.to_nat (m_log2Interp settings))). lia.
Qed.

(** Validation touches the selector only. *)
Lemma validateFilterChainHash_frame settings :
  validateFilterChainHash settings =
    set_filterChainHash settings (m_filterChainHash (validateFilterChainHash settings)).
Proof. reflexivity. Qed.

(** The validated selector is below the accumulator, hence below 3^n. *)
Lemma validateFilterChainHash_below settings :
  m_filterChainHash (validateFilterChainHash settings)
    < pow3_loop (Z.to_nat (m_log2Interp settings)) 1.
Proof.
  pose proof (validateFilterChainHash_hash settings) as E. cbv zeta in E. rewrite E.
  destruct (Z.geb_spec (m_filterChainHash settings)
              (pow3_loop (Z.to_nat (m_log2Interp settings)) 1)); lia.
Qed.

(** X2.  After validation the selector is below 3^m_log2Interp for
    every stage count, also where the 32-bit accumulator has wrapped. *)
Lemma validateFilterChainHash_bound settings :
  0 <= m_log2Interp settings ->
  m_filterChainHash (validateFilterChainHash settings) < 3 ^ m_log2Interp settings.
Proof.
  intros Hn.
  pose proof (validateFilterChainHash_below settings) as Hb.
  pose proof (pow3_loop_le (Z.to_nat (m_log2Interp settings))) as Hle.
  rewrite Z2Nat.id in Hle by assumption. lia.
Qed.

(** X1.  With at most twenty stages the clamp is the one against 3^n:
    a selector at or above 3^m_log2Interp becomes 3^m_log2Interp - 1 and
    any other selector is left unchanged. *)
Lemma validateFilterChainHash_exact settings :
  0 <= m_log2Interp settings <= 20 ->
  m_filterChainHash (validateFilterChainHash settings) =
    if m_filterChainHash settings >=? 3 ^ m_log2Interp settings
    then 3 ^ m_log2Interp settings - 1
    else m_filterChainHash settings.
Proof.
  intros Hn.
  pose proof (validateFilterChainHash_hash settings) as E. cbv zeta in E.
  rewrite pow3_loop_exact in E by lia.
  rewrite Z2Nat.id in E by lia. exact E.
Qed.

(** With two stages the selectors run from 0 to 8. *)
Example validateFilterChainHash_keeps_5 :
  m_filterChainHash (validateFilterChainHash sampleSettings) = 5.
Proof. reflexivity. Qed.

Example validateFilterChainHash_clamps_9 :
  m_filterChainHash (validateFilterChainHash (set_filterChainHash sampleSettings 9)) = 8.
Proof. reflexivity. Qed.

(** C1.  The claim says that a selector below 3^m_log2Interp is left
    unchanged.  With 21 stages 3^21 = 10460353203 no longer fits the
    32-bit accumulator, which holds 1870418611 instead; the selector
    2000000000 is below 3^21, and validation replaces it by 1870418610.
    The same input arrives through webapiUpdateChannelSettings with the
    keys log2Interp and filterChainHash. *)
Theorem validateFilterChainHash_overflow_21 :
  let settings := set_filterChainHash (set_log2Interp sampleSettings 21) 2000000000 in
  let response := mkSWG 21 2000000000 0 "File source" (-10) 0 "127.0.0.1" 8888 0 0 in
  m_filterChainHash settings < 3 ^ m_log2Interp settings /\
  pow3_loop (Z.to_nat (m_log2Interp settings)) 1 = 1870418611 /\
  m_filterChainHash (validateFilterChainHash settings) = 1870418610 /\
  m_filterChainHash
    (webapiUpdateChannelSettings sampleSettings
       ["log2Interp"%string; "filterChainHash"%string] response) = 1870418610.
Proof. cbv zeta. repeat split. Qed.

(** C10.  validateFilterChainHash is idempotent: validating validated
    settings changes nothing. *)
Theorem validateFilterChainHash_idempotent settings :
  validateFilterChainHash (validateFilterChainHash settings)
    = validateFilterChainHash settings.
Proof.
  pose proof (validateFilterChainHash_below settings) as Hb.
  pose proof (validateFilterChainHash_hash (validateFilterChainHash settings)) as E.
  cbv zeta in E.
  rewrite (validateFilterChainHash_frame (validateFilterChainHash settings)), E.
  change (m_log2Interp (validateFilterChainHash settings)) with (m_log2Interp settings).
  destruct (Z.geb_spec (m_filterChainHash (validateFilterChainHash settings))
              (pow3_loop (Z.to_nat (m_log2Interp settings)) 1)) as [H|H]; [lia|].
  reflexivity.
Qed.

(** ** The shift factor *)

Lemma digitShift_cases d :
  HBFilterChainConverter.digitShift d = 1%Q
  \/ HBFilterChainConverter.digitShift d = (-1)%Q
  \/ HBFilterChainConverter.digitShift d = 0%Q.
Proof.
  unfold HBFilterChainConverter.digitShift. destruct (d =? 1); [now left|].
  destruct (d =? 2); [right; now left | right; now right].
Qed.

(** A cascade whose first stage weighs [w] stays strictly within [2w]:
    the weights form a geometric series of ratio 1/2. *)
Lemma shiftStages_range stages : forall code w,
  (0 < w)%Q ->
  (- (2 * w) < HBFilterChainConverter.shiftStages stages code w
   /\ HBFilterChainConverter.shiftStages stages code w < 2 * w)%Q.
Proof.
  induction stages as [|k IH]; intros code w Hw; cbn [HBFilterChainConverter.shiftStages].
  - split; lra.
  - assert (Hh : (0 < w * (1 # 2))%Q) by lra.
    destruct (IH (code / 3) (w * (1 # 2))%Q Hh) as [Hlo Hhi].
    destruct (digitShift_cases (code mod 3)) as [E | [E | E]]; rewrite E; split; lra.
Qed.

Lemma getShiftFactor_range log2 chainHash :
  (- (1 # 2) <= HBFilterChainConverter.getShiftFactor log2 chainHash
   /\ HBFilterChainConverter.getShiftFactor log2 chainHash < 1 # 2)%Q.
Proof.
  unfold HBFilterChainConverter.getShiftFactor.
  destruct (shiftStages_range (Z.to_nat log2) chainHash (1 # 4)) as [Hlo Hhi]; [lra|].
  split; lra.
Qed.

(** The nine selectors of a two-stage chain. *)
Example getShiftFactor_two_stages :
  map (fun code => Qred (HBFilterChainConverter.getShiftFactor 2 code))
      [0; 1; 2; 3; 4; 5; 6; 7; 8]
  = [0; 1 # 4; - (1 # 4); 1 # 8; 3 # 8; - (1 # 8); - (1 # 8); 1 # 8; - (3 # 8)]%Q.
Proof. reflexivity. Qed.

(** ** Elapsed time *)

Lemma elapsed_zero_rate samplesCount : elapsed samplesCount 0 = Some (0, 0).
Proof. reflexivity. Qed.

Lemma elapsedTimeString_zero : elapsedTimeString 0 0 = "00:00:00.000"%string.
Proof. reflexivity. Qed.

Example elapsed_one_and_a_half_seconds : elapsed 72000 48000 = Some (1, 500).
Proof. reflexivity. Qed.

Example elapsedTimeString_sample :
  elapsedTimeString 3725 42 = "01:02:05.042"%string.
Proof. reflexivity. Qed.

(** Above 2^63 samples the signed product can overflow. *)
Example elapsed_signed_overflow : elapsed (2 ^ 63 + 5) 3 = None.
Proof. reflexivity. Qed.

(** With a positive rate and a count below 2^63 no step wraps or faults:
    the results are the quotient and the scaled remainder. *)
Lemma elapsed_positive_rate samplesCount fileSampleRate :
  0 <= samplesCount < 2 ^ 63 ->
  0 < fileSampleRate < 2 ^ 32 ->
  elapsed samplesCount fileSampleRate =
    Some (samplesCount / fileSampleRate,
          (samplesCount mod fileSampleRate) * 1000 / fileSampleRate)
  /\ 0 <= (samplesCount mod fileSampleRate) * 1000 / fileSampleRate < 1000.
Proof.
  intros Hc Hr.
  assert (Hq : 0 <= samplesCount / fileSampleRate <= samplesCount).
  { split; [apply Z.div_pos; lia|]. apply Z.div_le_upper_bound; nia. }
  assert (Hm : 0 <= samplesCount mod fileSampleRate < fileSampleRate)
    by (apply Z.mod_pos_bound; lia).
  assert (Hp : samplesCount / fileSampleRate * fileSampleRate
               = samplesCount - samplesCount mod fileSampleRate).
  { rewrite Z.mod_eq by lia. ring. }
  assert (Hd : 0 <= samplesCount mod fileSampleRate * 1000 / fileSampleRate < 1000).
  { split; [apply Z.div_pos; lia|]. apply Z.div_lt_upper_bound; lia. }
  split; [|exact Hd].
  unfold elapsed, Int.udiv, Int.smul64, Int.fits64, bind.
  replace (fileSampleRate >? 0) with true by (symmetry; apply Z.gtb_lt; lia).
  replace (fileSampleRate =? 0) with false by (symmetry; apply Z.eqb_neq; lia).
  rewrite (signed64_small (samplesCount / fileSampleRate)) by lia.
  rewrite Hp.
  replace (- 2 ^ 63 <=? samplesCount - samplesCount mod fileSampleRate) with true
    by (symmetry; apply Z.leb_le; lia).
  replace (samplesCount - samplesCount mod fileSampleRate <? 2 ^ 63) with true
    by (symmetry; apply Z.ltb_lt; lia).
  cbn [andb].
  rewrite (wrap64_small (samplesCount - samplesCount mod fileSampleRate)) by lia.
  replace (samplesCount - (samplesCount - samplesCount mod fileSampleRate))
    with (samplesCount mod fileSampleRate) by ring.
  rewrite (wrap64_small (samplesCount mod fileSampleRate)) by lia.
  rewrite (wrap64_small (samplesCount mod fileSampleRate * 1000)) by lia.
  rewrite signed64_small by lia.
  reflexivity.
Qed.

(** C7, the claim as written.  With 2^63 samples at a rate of one sample
    per second the unsigned quotient 2^63 does not fit the signed [t_sec],
    which receives -2^63: the computed seconds are not
    samplesCount / fileSampleRate. *)
Lemma elapsed_seconds_wrap :
  elapsed (2 ^ 63) 1 = Some (- 2 ^ 63, 0) /\ - 2 ^ 63 <> 2 ^ 63 / 1.
Proof. split; [reflexivity | discriminate]. Qed.

(** C7, amended.  With the file sample rate at zero the report is built
    without any division, its seconds and milliseconds are zero and its
    elapsed time reads 00:00:00.000.  With a positive rate and a sample
    count below 2^63 the report is built without a fault, t_sec is
    samplesCount / fileSampleRate and 0 <= t_msec < 1000. *)
Theorem webapiFormatChannelReport_elapsed (st : FileSource) :
  0 <= getSamplesCount st < 2 ^ 64 ->
  0 <= getFileSampleRate st < 2 ^ 32 ->
  (0 < getFileSampleRate st -> getSamplesCount st < 2 ^ 63) ->
  exists t_sec t_msec report,
    elapsed (getSamplesCount st) (getFileSampleRate st) = Some (t_sec, t_msec)
    /\ webapiFormatChannelReport st = Some report
    /\ rep_elapsedTime report = elapsedTimeString t_sec t_msec
    /\ 0 <= t_msec < 1000
    /\ (getFileSampleRate st = 0 ->
        t_sec = 0 /\ t_msec = 0 /\ rep_elapsedTime report = "00:00:00.000"%string)
    /\ (0 < getFileSampleRate st -> t_sec = getSamplesCount st / getFileSampleRate st).
Proof.
  unfold webapiFormatChannelReport.
  generalize (getSamplesCount st) (getFileSampleRate st).
  intros samplesCount fileSampleRate Hc Hr Hs.
  destruct (Z.eq_dec fileSampleRate 0) as [Hz | Hnz].
  - subst fileSampleRate. exists 0, 0. rewrite elapsed_zero_rate.
    cbn [bind fst snd]. eexists.
    repeat split; try reflexivity; lia.
  - destruct (elapsed_positive_rate samplesCount fileSampleRate) as [E Hb];
      [lia | lia |].
    eexists _, _. rewrite E. cbn [bind fst snd]. eexists.
    repeat split; try reflexivity; lia.
Qed.

(** ** The message handler and the settings swap *)

Section FileSourceProperties.

Variable powerFromdB : Z -> Q.
Variable storeOffset : Q -> Q.
Variable settingsDeserialize :
  list Byte.byte -> FileSourceSettings -> FileSourceSettings * bool.
Variable resetToDefaults : FileSourceSettings -> FileSourceSettings.

(** C2.  A message of a kind that handleMessage does not test for gets
    the answer false and leaves the whole component state as it was. *)
Theorem handleMessage_unrecognized (cmd : Message) (st : FileSource) :
  recognized cmd = false ->
  handleMessage powerFromdB storeOffset cmd st = (false, st).
Proof.
  intros H. destruct cmd; cbn in H; try discriminate H; reflexivity.
Qed.

(** C3.  After applySettings the stored configuration is the snapshot it
    was given, whatever the force flag and the previous state. *)
Theorem applySettings_stores_snapshot
    (settings : FileSourceSettings) (force : bool) (st : FileSource) :
  m_settings (applySettings powerFromdB settings force st) = settings.
Proof. reflexivity. Qed.

Lemma pushToGUI_queue st m :
  m_guiMessageQueue (pushToGUI st m)
    = option_map (fun q => push q m) (m_guiMessageQueue st).
Proof.
  unfold pushToGUI. destruct (m_guiMessageQueue st) eqn:E; cbn; [reflexivity | exact E].
Qed.

Lemma pushToGUI_frame st m :
  pushToGUI st m = set_guiMessageQueue st (m_guiMessageQueue (pushToGUI st m)).
Proof.
  unfold pushToGUI. destruct st as [bb s cf fo sr g iq gq nr]. cbn.
  destruct gq; reflexivity.
Qed.

(** C4.  Handling a DSPSignalNotification with sample rate R and center
    frequency F answers true and, in that one call, stores R as the
    baseband sample rate, recomputes the frequency offset from R and the
    current settings, appends a copy of the notification to the baseband
    source's input queue and, when a GUI queue is set, appends a
    MsgSampleRateNotification carrying R to it. *)
Theorem handleMessage_DSPSignalNotification (R F : Z) (st : FileSource) :
  let result := handleMessage powerFromdB storeOffset (DSPSignalNotification R F) st in
  let st' := snd result in
  fst result = true
  /\ m_basebandSampleRate st' = R
  /\ m_settings st' = m_settings st
  /\ m_frequencyOffset st' =
       storeOffset (inject_Z R *
                    HBFilterChainConverter.getShiftFactor
                      (m_log2Interp (m_settings st))
                      (m_filterChainHash (m_settings st)))%Q
  /\ bb_inputMessageQueue (m_basebandSource st') =
       bb_inputMessageQueue (m_basebandSource st) ++ [DSPSignalNotification R F]
  /\ m_guiMessageQueue st' =
       match m_guiMessageQueue st with
       | Some q => Some (q ++ [MsgSampleRateNotification R])
       | None => None
       end.
Proof.
  cbv zeta. cbn [handleMessage fst snd].
  destruct st as [bb s cf fo sr g iq gq nr].
  unfold pushToGUI. cbn. destruct gq; cbn; repeat split; reflexivity.
Qed.

(** C5.  For a selector code below 3^stageCount the shift factor lies in
    [-1/2, 1/2), and calculateFrequencyOffset stores the baseband sample
    rate multiplied by that factor as the frequency offset. *)
Theorem shiftFactor_range_and_offset (stageCount selectorCode : Z) :
  0 <= selectorCode < 3 ^ stageCount ->
  (- (1 # 2) <= HBFilterChainConverter.getShiftFactor stageCount selectorCode
   /\ HBFilterChainConverter.getShiftFactor stageCount selectorCode < 1 # 2)%Q
  /\ forall st : FileSource,
       m_log2Interp (m_settings st) = stageCount ->
       m_filterChainHash (m_settings st) = selectorCode ->
       m_frequencyOffset (calculateFrequencyOffset storeOffset st) =
         storeOffset (inject_Z (m_basebandSampleRate st) *
                      HBFilterChainConverter.getShiftFactor stageCount selectorCode)%Q.
Proof.
  intros _. split.
  - apply getShiftFactor_range.
  - intros st Hn Hc. unfold calculateFrequencyOffset. rewrite Hn, Hc. reflexivity.
Qed.






Variable External : Type.



(** C9.  deserialize answers with the result of restoring the settings,
    stores the restored settings on success and the defaults on failure,
    and appends to the input queue exactly one MsgConfigureFileSource that
    carries the stored settings with the force flag set. *)
Theorem deserialize_enqueues_configure (data : list Byte.byte) (st : FileSource) :
  let restored := fst (settingsDeserialize data (m_settings st)) in
  let ok := snd (settingsDeserialize data (m_settings st)) in
  let snapshot := if ok then restored else resetToDefaults restored in
  deserialize settingsDeserialize resetToDefaults data st =
    (ok, set_inputMessageQueue (set_settings st snapshot)
           (m_inputMessageQueue st ++ [MsgConfigureFileSource snapshot true])).
Proof.
  cbv zeta. unfold deserialize.
  destruct (settingsDeserialize data (m_settings st)) as [restored ok].
  cbn [fst snd]. destruct ok; reflexivity.
Qed.

End FileSourceProperties.

(** ** The theorems at sample values *)

(** The handler refuses a sample-rate report, which it only ever sends. *)
Lemma handleMessage_unrecognized_witness :
  recognized (MsgSampleRateNotification 48000) = false
  /\ handleMessage sampleGain truncate (MsgSampleRateNotification 48000) sampleState
     = (false, sampleState).
Proof.
  split; [reflexivity|].
  apply (handleMessage_unrecognized sampleGain truncate
           (MsgSampleRateNotification 48000) sampleState).
  reflexivity.
Defined.

(** Two stages, selector 5 (digits 2 and 1): the factor is -1/8 and the
    offset at 48000 samples per second is -6000. *)
Lemma shiftFactor_range_and_offset_witness :
  0 <= 5 < 3 ^ 2
  /\ (- (1 # 2) <= HBFilterChainConverter.getShiftFactor 2 5
      /\ HBFilterChainConverter.getShiftFactor 2 5 < 1 # 2)%Q
  /\ m_frequencyOffset (calculateFrequencyOffset truncate sampleState) =
       truncate (inject_Z 48000 * HBFilterChainConverter.getShiftFactor 2 5)%Q.
Proof.
  assert (H : 0 <= 5 < 3 ^ 2) by lia.
  split; [exact H|].
  destruct (shiftFactor_range_and_offset truncate 2 5 H) as [Hrange Hoffset].
  split; [exact Hrange|].
  apply (Hoffset sampleState); reflexivity.
Defined.

(** 96000 samples of a file at 48000 samples per second: two seconds. *)
Lemma webapiFormatChannelReport_elapsed_witness :
  exists t_sec t_msec report,
    elapsed (getSamplesCount sampleState) (getFileSampleRate sampleState)
      = Some (t_sec, t_msec)
    /\ webapiFormatChannelReport sampleState = Some report
    /\ rep_elapsedTime report = elapsedTimeString t_sec t_msec
    /\ 0 <= t_msec < 1000
    /\ (getFileSampleRate sampleState = 0 ->
        t_sec = 0 /\ t_msec = 0 /\ rep_elapsedTime report = "00:00:00.000"%string)
    /\ (0 < getFileSampleRate sampleState ->
        t_sec = getSamplesCount sampleState / getFileSampleRate sampleState).
Proof.
  apply (webapiFormatChannelReport_elapsed sampleState);
    unfold getSamplesCount, getFileSampleRate; simpl; lia.
Defined.


(** The condition on the callee carries the conclusion: around a callee
    that counts its calls, the same state gives two different offsets. *)
Example countingCall_breaks_determinism :
  ~ deterministicAndPure Z countingCall
  /\ m_frequencyOffset
       (fst (calculateFrequencyOffsetCalling truncate Z countingCall sampleState 0))
     <> m_frequencyOffset
          (fst (calculateFrequencyOffsetCalling truncate Z countingCall sampleState 1)).
Proof.
  split.
  - intros [_ Hpure]. specialize (Hpure 0 0 0). discriminate Hpure.
  - discriminate.
Qed.

(** * Further properties of the channel *)

(** ** validateFilterChainHash and the settings update *)

Lemma wrap32_signed32 x : 0 <= x < 2 ^ 32 -> Int.wrap32 (Int.signed32 x) = x.
Proof.
  intros H. unfold Int.wrap32, Int.signed32.
  rewrite Zminus_mod_idemp_l.
  replace (x + 2 ^ 31 - 2 ^ 31) with x by ring.
  now apply Z.mod_small.
Qed.

(** X3.  For every stage count the validated selector is the smaller of
    the given selector and (3^m_log2Interp mod 2^32) - 1: validation
    never raises a selector, and the bound it clamps to is the power of
    three as the 32-bit accumulator holds it. *)
Theorem validateFilterChainHash_min settings :
  0 <= m_log2Interp settings ->
  m_filterChainHash (validateFilterChainHash settings) =
    Z.min (m_filterChainHash settings) (3 ^ m_log2Interp settings mod 2 ^ 32 - 1).
Proof.
  intros Hn.
  pose proof (validateFilterChainHash_hash settings) as E. cbv zeta in E.
  rewrite pow3_loop_closed, Z2Nat.id in E by assumption. rewrite E.
  destruct (Z.geb_spec (m_filterChainHash settings)
              (3 ^ m_log2Interp settings mod 2 ^ 32)); lia.
Qed.

(** A step of the update keeps what its assignment keeps. *)
Lemma onKey_proj {A : Type} (p : FileSourceSettings -> A) keys k f s :
  (forall x, p (f x) = p x) -> p (onKey keys k f s) = p s.
Proof. intros H. unfold onKey. destruct (contains keys k); [apply H | reflexivity]. Qed.

(** X4.  An update whose key list holds none of the ten settings keys
    (the empty list, or keys such as loop and fileName that the update
    does not look for) returns the settings unchanged, whatever the
    request body holds. *)
Theorem webapiUpdateChannelSettings_no_key settings keys response :
  (forall k, In k settingsKeys -> contains keys k = false) ->
  webapiUpdateChannelSettings settings keys response = settings.
Proof.
  intros H. unfold webapiUpdateChannelSettings, onKey. cbv zeta.
  repeat (rewrite H by (unfold settingsKeys; simpl; tauto)).
  reflexivity.
Qed.

(** X5.  No update changes the file name or the loop flag: for every key
    list and request body both fields come out as they went in. *)
Theorem webapiUpdateChannelSettings_keeps_file settings keys response :
  m_fileName (webapiUpdateChannelSettings settings keys response) = m_fileName settings
  /\ m_loop (webapiUpdateChannelSettings settings keys response) = m_loop settings.
Proof.
  unfold webapiUpdateChannelSettings. cbv zeta. split.
  - repeat (rewrite (onKey_proj m_fileName) by (intros; reflexivity)). reflexivity.
  - repeat (rewrite (onKey_proj m_loop) by (intros; reflexivity)). reflexivity.
Qed.

(** X6.  When the key list holds filterChainHash, the selector of the
    updated settings is below 3^m_log2Interp of the updated settings:
    a stage count given in the same request is stored first and is the
    one the selector is validated against. *)
Theorem webapiUpdateChannelSettings_validates settings keys response :
  contains keys "filterChainHash" = true ->
  0 <= m_log2Interp settings ->
  m_filterChainHash (webapiUpdateChannelSettings settings keys response)
    < 3 ^ m_log2Interp (webapiUpdateChannelSettings settings keys response).
Proof.
  intros Hk Hn. unfold webapiUpdateChannelSettings. cbv zeta.
  repeat (rewrite (onKey_proj m_filterChainHash) by (intros; reflexivity)).
  repeat (rewrite (onKey_proj m_log2Interp) by (intros; reflexivity)).
  unfold onKey at 1. rewrite Hk.
  match goal with
  | |- m_filterChainHash (validateFilterChainHash ?x) < 3 ^ ?n =>
      pose proof (validateFilterChainHash_below x) as Hb;
      pose proof (pow3_loop_le (Z.to_nat (m_log2Interp x))) as Hle;
      change n with (m_log2Interp x);
      assert (H0 : 0 <= m_log2Interp x)
  end.
  { cbn [m_log2Interp set_filterChainHash]. unfold onKey.
    destruct (contains keys "log2Interp"); [|assumption].
    cbn [m_log2Interp set_log2Interp]. apply wrap32_range. }
  rewrite Z2Nat.id in Hle by assumption. lia.
Qed.

(** X7.  When the key list does not hold filterChainHash the selector is
    neither replaced nor validated: it keeps its value even if the same
    update changes the stage count, so it can end at or above
    3^m_log2Interp. *)
Theorem webapiUpdateChannelSettings_hash_untouched settings keys response :
  contains keys "filterChainHash" = false ->
  m_filterChainHash (webapiUpdateChannelSettings settings keys response)
    = m_filterChainHash settings.
Proof.
  intros Hk. unfold webapiUpdateChannelSettings. cbv zeta.
  repeat (rewrite (onKey_proj m_filterChainHash) by (intros; reflexivity)).
  unfold onKey at 1. rewrite Hk.
  apply onKey_proj. intros; reflexivity.
Qed.

(** The update with every key, field by field. *)
Lemma webapiUpdateChannelSettings_all_keys settings response :
  webapiUpdateChannelSettings settings settingsKeys response =
    mkSettings (m_fileName settings) (m_loop settings)
      (Int.wrap32 (swg_log2Interp response))
      (m_filterChainHash
         (validateFilterChainHash
            (set_filterChainHash
               (set_log2Interp settings (Int.wrap32 (swg_log2Interp response)))
               (Int.wrap32 (swg_filterChainHash response)))))
      (swg_gainDb response) (swg_rgbColor response) (swg_title response)
      (negb (swg_useReverseApi response =? 0))
      (swg_reverseApiAddress response) (swg_reverseApiPort response)
      (swg_reverseApiDeviceIndex response) (swg_reverseApiChannelIndex response).
Proof. reflexivity. Qed.

(** Formatting overwrites every field of the response. *)
Lemma webapiFormatChannelSettings_fields response settings :
  webapiFormatChannelSettings response settings =
    mkSWG (Int.signed32 (m_log2Interp settings))
      (Int.signed32 (m_filterChainHash settings))
      (m_rgbColor settings) (m_title settings) (m_gainDB settings)
      (if m_useReverseAPI settings then 1 else 0)
      (m_reverseAPIAddress settings) (m_reverseAPIPort settings)
      (m_reverseAPIDeviceIndex settings) (m_reverseAPIChannelIndex settings).
Proof. reflexivity. Qed.

(** X8.  Round trip through the REST object: formatting settings whose
    stage count is at most 20 and whose selector is below
    3^m_log2Interp, and updating any settings from that response with
    all ten keys, gives the formatted settings back, except for the file
    name and the loop flag, which stay those of the updated settings. *)
Theorem webapiFormatChannelSettings_update_roundtrip settings target response :
  0 <= m_log2Interp settings <= 20 ->
  0 <= m_filterChainHash settings < 3 ^ m_log2Interp settings ->
  webapiUpdateChannelSettings target settingsKeys
      (webapiFormatChannelSettings response settings)
    = set_loop (set_fileName settings (m_fileName target)) (m_loop target).
Proof.
  intros Hn Hh.
  rewrite webapiUpdateChannelSettings_all_keys, webapiFormatChannelSettings_fields.
  cbn [swg_log2Interp swg_filterChainHash swg_rgbColor swg_title swg_gainDb
       swg_useReverseApi swg_reverseApiAddress swg_reverseApiPort
       swg_reverseApiDeviceIndex swg_reverseApiChannelIndex].
  assert (H3 : 3 ^ m_log2Interp settings <= 3 ^ 20)
    by (apply Z.pow_le_mono_r; lia).
  assert (H20 : 3 ^ 20 < 2 ^ 32) by reflexivity.
  rewrite !wrap32_signed32 by lia.
  pose proof (validateFilterChainHash_hash
                (set_filterChainHash
                   (set_log2Interp target (m_log2Interp settings))
                   (m_filterChainHash settings))) as E.
  cbv zeta in E. cbn [m_log2Interp m_filterChainHash set_filterChainHash set_log2Interp] in E.
  rewrite pow3_loop_exact, Z2Nat.id in E by lia.
  rewrite E.
  destruct (Z.geb_spec (m_filterChainHash settings) (3 ^ m_log2Interp settings)) as [G|G];
    [lia|].
  replace (negb ((if m_useReverseAPI settings then 1 else 0) =? 0))
    with (m_useReverseAPI settings) by (destruct (m_useReverseAPI settings); reflexivity).
  destruct settings; reflexivity.
Qed.

(** Two settings with the same twelve fields are the same settings. *)
Lemma settings_ext (a b : FileSourceSettings) :
  m_fileName a = m_fileName b -> m_loop a = m_loop b ->
  m_log2Interp a = m_log2Interp b -> m_filterChainHash a = m_filterChainHash b ->
  m_gainDB a = m_gainDB b -> m_rgbColor a = m_rgbColor b ->
  m_title a = m_title b -> m_useReverseAPI a = m_useReverseAPI b ->
  m_reverseAPIAddress a = m_reverseAPIAddress b ->
  m_reverseAPIPort a = m_reverseAPIPort b ->
  m_reverseAPIDeviceIndex a = m_reverseAPIDeviceIndex b ->
  m_reverseAPIChannelIndex a = m_reverseAPIChannelIndex b ->
  a = b.
Proof. destruct a, b; cbn; intros; subst; reflexivity. Qed.

Lemma onKey_if {A : Type} (p : FileSourceSettings -> A) keys k f s :
  p (onKey keys k f s) = if contains keys k then p (f s) else p s.
Proof. unfold onKey. destruct (contains keys k); reflexivity. Qed.

(** The validated selector depends on the stage count and the selector. *)
Lemma validateFilterChainHash_depends x y :
  m_log2Interp x = m_log2Interp y ->
  m_filterChainHash x = m_filterChainHash y ->
  m_filterChainHash (validateFilterChainHash x)
    = m_filterChainHash (validateFilterChainHash y).
Proof.
  intros Hn Hh. unfold validateFilterChainHash.
  cbn [m_filterChainHash set_filterChainHash]. rewrite Hn, Hh. reflexivity.
Qed.

Ltac strip p := repeat (rewrite (onKey_proj p) by (intros; reflexivity)).

Ltac own_key p := strip p; rewrite (onKey_if p); strip p; reflexivity.

(** The update, field by field. *)
Lemma webapiUpdateChannelSettings_fields settings keys response :
  webapiUpdateChannelSettings settings keys response =
    mkSettings (m_fileName settings) (m_loop settings)
      (if contains keys "log2Interp"
       then Int.wrap32 (swg_log2Interp response) else m_log2Interp settings)
      (if contains keys "filterChainHash"
       then m_filterChainHash
              (validateFilterChainHash
                 (set_filterChainHash
                    (set_log2Interp settings
                       (if contains keys "log2Interp"
                        then Int.wrap32 (swg_log2Interp response)
                        else m_log2Interp settings))
                    (Int.wrap32 (swg_filterChainHash response))))
       else m_filterChainHash settings)
      (if contains keys "gainDB" then swg_gainDb response else m_gainDB settings)
      (if contains keys "rgbColor" then swg_rgbColor response else m_rgbColor settings)
      (if contains keys "title" then swg_title response else m_title settings)
      (if contains keys "useReverseAPI"
       then negb (swg_useReverseApi response =? 0) else m_useReverseAPI settings)
      (if contains keys "reverseAPIAddress"
       then swg_reverseApiAddress response else m_reverseAPIAddress settings)
      (if contains keys "reverseAPIPort"
       then swg_reverseApiPort response else m_reverseAPIPort settings)
      (if contains keys "reverseAPIDeviceIndex"
       then swg_reverseApiDeviceIndex response else m_reverseAPIDeviceIndex settings)
      (if contains keys "reverseAPIChannelIndex"
       then swg_reverseApiChannelIndex response else m_reverseAPIChannelIndex settings).
Proof.
  apply settings_ext;
    cbn [m_fileName m_loop m_log2Interp m_filterChainHash m_gainDB m_rgbColor m_title
         m_useReverseAPI m_reverseAPIAddress m_reverseAPIPort m_reverseAPIDeviceIndex
         m_reverseAPIChannelIndex];
    unfold webapiUpdateChannelSettings; cbv zeta.
  - strip m_fileName. reflexivity.
  - strip m_loop. reflexivity.
  - own_key m_log2Interp.
  - strip m_filterChainHash. rewrite (onKey_if m_filterChainHash).
    destruct (contains keys "filterChainHash").
    + apply validateFilterChainHash_depends;
        cbn [m_log2Interp m_filterChainHash set_filterChainHash set_log2Interp];
        [|reflexivity].
      rewrite (onKey_if m_log2Interp). reflexivity.
    + strip m_filterChainHash. reflexivity.
  - own_key m_gainDB.
  - own_key m_rgbColor.
  - own_key m_title.
  - own_key m_useReverseAPI.
  - own_key m_reverseAPIAddress.
  - own_key m_reverseAPIPort.
  - own_key m_reverseAPIDeviceIndex.
  - own_key m_reverseAPIChannelIndex.
Qed.

(** X9.  The update is idempotent: applying the same keys and request
    body a second time changes nothing. *)
Theorem webapiUpdateChannelSettings_idempotent settings keys response :
  webapiUpdateChannelSettings
      (webapiUpdateChannelSettings settings keys response) keys response
    = webapiUpdateChannelSettings settings keys response.
Proof.
  rewrite (webapiUpdateChannelSettings_fields
             (webapiUpdateChannelSettings settings keys response)).
  rewrite !(webapiUpdateChannelSettings_fields settings).
  cbn [m_fileName m_loop m_log2Interp m_filterChainHash m_gainDB m_rgbColor m_title
       m_useReverseAPI m_reverseAPIAddress m_reverseAPIPort m_reverseAPIDeviceIndex
       m_reverseAPIChannelIndex].
  f_equal; try (destruct (contains keys _); reflexivity).
  destruct (contains keys "filterChainHash"); [|reflexivity].
  apply validateFilterChainHash_depends;
    cbn [m_log2Interp m_filterChainHash set_filterChainHash set_log2Interp];
    [|reflexivity].
  destruct (contains keys "log2Interp"); reflexivity.
Qed.

(** ** Elapsed time *)

(** X10.  For a positive file sample rate and fewer than 2^63 samples the
    two parts of the elapsed time add up to the whole milliseconds played:
    1000 * t_sec + t_msec is samplesCount * 1000 / fileSampleRate rounded
    down, with no rounding error carried from the seconds. *)
Theorem elapsed_whole_milliseconds samplesCount fileSampleRate :
  0 <= samplesCount < 2 ^ 63 ->
  0 < fileSampleRate < 2 ^ 32 ->
  exists t_sec t_msec,
    elapsed samplesCount fileSampleRate = Some (t_sec, t_msec)
    /\ 1000 * t_sec + t_msec = samplesCount * 1000 / fileSampleRate.
Proof.
  intros Hc Hr.
  destruct (elapsed_positive_rate samplesCount fileSampleRate Hc Hr) as [E _].
  eexists _, _. split; [exact E|].
  rewrite (Z.div_mod samplesCount fileSampleRate) at 3 by lia.
  replace ((fileSampleRate * (samplesCount / fileSampleRate)
            + samplesCount mod fileSampleRate) * 1000)
    with (1000 * (samplesCount / fileSampleRate) * fileSampleRate
          + samplesCount mod fileSampleRate * 1000) by ring.
  rewrite Z.div_add_l by lia. reflexivity.
Qed.

(** X11.  For seconds that fit an int and milliseconds below 1000 the
    elapsed-time text is the time of day (t_sec mod 86400) seconds and
    t_msec milliseconds after midnight: the text starts again from
    00:00:00.000 after every 24 hours of play. *)
Theorem elapsedTimeString_wraps_daily t_sec t_msec :
  0 <= t_sec < 2 ^ 31 ->
  0 <= t_msec < 1000 ->
  elapsedTimeString t_sec t_msec
    = QTime.toString_ms ((t_sec mod 86400) * 1000 + t_msec).
Proof.
  intros Hs Hm.
  assert (Hr : 0 <= t_sec mod 86400 < 86400) by (apply Z.mod_pos_bound; lia).
  unfold elapsedTimeString, QTime.addSecs, QTime.addMSecs, QTime.midnight,
    QTime.SECS_PER_DAY, QTime.MSECS_PER_DAY, Int.signed32.
  rewrite !(Z.mod_small (_ + 2 ^ 31) (2 ^ 32)) by lia.
  replace (t_sec + 2 ^ 31 - 2 ^ 31) with t_sec by ring.
  replace (t_msec + 2 ^ 31 - 2 ^ 31) with t_msec by ring.
  rewrite (Z.rem_mod_nonneg t_sec 86400) by lia.
  replace (t_sec mod 86400 * 1000 <? 0) with false by (symmetry; apply Z.ltb_ge; lia).
  replace (t_msec <? 0) with false by (symmetry; apply Z.ltb_ge; lia).
  rewrite Z.add_0_l.
  rewrite (Z.rem_small (t_sec mod 86400 * 1000)) by lia.
  rewrite Z.rem_small by lia.
  reflexivity.
Qed.

(** ** The REST entry points, the handler and the settings swap *)

Section FileSourceFurtherProperties.

Variable powerFromdB : Z -> Q.
Variable storeOffset : Q -> Q.
Variable settingsDeserialize :
  list Byte.byte -> FileSourceSettings -> FileSourceSettings * bool.
Variable resetToDefaults : FileSourceSettings -> FileSourceSettings.

(** What applySettings leaves alone, and what it sends to the baseband. *)
Lemma applySettings_frame (settings : FileSourceSettings) (force : bool) (st : FileSource) :
  let st' := applySettings powerFromdB settings force st in
  m_basebandSource st' =
    bb_push (m_basebandSource st) (Baseband_MsgConfigureFileSourceBaseband settings force)
  /\ m_centerFrequency st' = m_centerFrequency st
  /\ m_frequencyOffset st' = m_frequencyOffset st
  /\ m_basebandSampleRate st' = m_basebandSampleRate st
  /\ m_inputMessageQueue st' = m_inputMessageQueue st
  /\ m_guiMessageQueue st' = m_guiMessageQueue st.
Proof.
  cbv zeta. unfold applySettings.
  destruct (gainDBChanged (m_settings st) settings force), (m_useReverseAPI settings);
    cbn; repeat split; reflexivity.
Qed.

(** X12.  A PUT or PATCH of the settings answers 200 and does not change
    the stored settings itself: it appends one MsgConfigureFileSource with
    the updated snapshot and the force flag to the channel's input queue,
    and the same message to the GUI queue when there is one; the snapshot
    becomes the stored configuration when that message is handled. *)
Theorem webapiSettingsPutPatch_queues_the_change
    (force : bool) (keys : list string) (response : SWGFileSourceSettings)
    (st : FileSource) :
  let settings := webapiUpdateChannelSettings (m_settings st) keys response in
  let msg := MsgConfigureFileSource settings force in
  let result := webapiSettingsPutPatch force keys response st in
  let st' := snd result in
  fst (fst result) = 200
  /\ m_settings st' = m_settings st
  /\ m_inputMessageQueue st' = m_inputMessageQueue st ++ [msg]
  /\ m_guiMessageQueue st' =
       match m_guiMessageQueue st with
       | Some q => Some (q ++ [msg])
       | None => None
       end
  /\ m_settings (snd (handleMessage powerFromdB storeOffset msg st')) = settings.
Proof.
  cbv zeta. destruct st as [bb s cf fo sr g iq gq nr].
  unfold webapiSettingsPutPatch, pushToGUI. cbn [m_settings m_guiMessageQueue
    m_inputMessageQueue set_inputMessageQueue fst snd handleMessage].
  destruct gq; cbn; repeat split; reflexivity.
Qed.

(** X13.  What a PUT or PATCH returns is what a GET returns once the
    queued message has been handled; a GET before that still shows the
    settings stored before the request. *)
Theorem webapiSettingsGet_after_PutPatch
    (force : bool) (keys : list string) (response fresh : SWGFileSourceSettings)
    (st : FileSource) :
  let settings := webapiUpdateChannelSettings (m_settings st) keys response in
  let result := webapiSettingsPutPatch force keys response st in
  let handled :=
    snd (handleMessage powerFromdB storeOffset
           (MsgConfigureFileSource settings force) (snd result)) in
  webapiSettingsGet fresh handled = (200, snd (fst result))
  /\ webapiSettingsGet fresh (snd result) = webapiSettingsGet fresh st.
Proof.
  cbv zeta. destruct st as [bb s cf fo sr g iq gq nr].
  unfold webapiSettingsPutPatch, webapiSettingsGet, pushToGUI.
  cbn [m_settings m_guiMessageQueue m_inputMessageQueue set_inputMessageQueue
       fst snd handleMessage].
  destruct gq; cbn; split; reflexivity.
Qed.

Ltac grows :=
  first [ exists []; split; [symmetry; apply app_nil_r | cbn; lia]
        | eexists [_]; split; [reflexivity | cbn; lia] ].

(** X14.  For every message and state, handleMessage answers true
    exactly for the six kinds it tests for, leaves the channel's own input
    queue as it is, and never removes or reorders a queued message: the
    baseband source's queue and the GUI queue each keep their content and
    gain at most one message at the end; a missing GUI queue stays
    missing. *)
Theorem handleMessage_queues_grow (cmd : Message) (st : FileSource) :
  let st' := snd (handleMessage powerFromdB storeOffset cmd st) in
  fst (handleMessage powerFromdB storeOffset cmd st) = recognized cmd
  /\ m_inputMessageQueue st' = m_inputMessageQueue st
  /\ (exists l, bb_inputMessageQueue (m_basebandSource st')
                = bb_inputMessageQueue (m_basebandSource st) ++ l
                /\ (List.length l <= 1)%nat)
  /\ match m_guiMessageQueue st, m_guiMessageQueue st' with
     | Some q, Some q' => exists l, q' = q ++ l /\ (List.length l <= 1)%nat
     | None, None => True
     | _, _ => False
     end.
Proof.
  cbv zeta. destruct cmd; cbn [handleMessage fst snd recognized];
    try (destruct (applySettings_frame settings force st)
           as (Hbb & _ & _ & _ & Hiq & Hgq); rewrite Hbb, Hiq, Hgq);
    destruct st as [[bq sc fr ts rl fs] s cf fo sr g iq [q|] nr];
    unfold pushToGUI, pushToBaseband, bb_push, push;
    cbn; repeat split; try grows.
Qed.

(** X15.  Only a MsgConfigureFileSource changes the stored settings, the
    linear gain or the requests sent, and only a DSPSignalNotification
    changes the baseband sample rate, the frequency offset or the center
    frequency: a rename, work, seek or timing message touches none of
    them. *)
Theorem handleMessage_frame (cmd : Message) (st : FileSource) :
  let st' := snd (handleMessage powerFromdB storeOffset cmd st) in
  match cmd with
  | MsgConfigureFileSource _ _ => True
  | _ => m_settings st' = m_settings st
         /\ m_linearGain st' = m_linearGain st
         /\ sentRequests st' = sentRequests st
  end
  /\ match cmd with
     | DSPSignalNotification _ _ => True
     | _ => m_basebandSampleRate st' = m_basebandSampleRate st
            /\ m_frequencyOffset st' = m_frequencyOffset st
            /\ m_centerFrequency st' = m_centerFrequency st
     end.
Proof.
  cbv zeta. destruct cmd; cbn [handleMessage snd];
    try (destruct (applySettings_frame settings force st)
           as (_ & Hcf & Hfo & Hsr & _ & _); rewrite Hcf, Hfo, Hsr);
    destruct st as [bb s cf fo sr g iq [q|] nr];
    unfold pushToGUI; cbn; repeat split; reflexivity.
Qed.

Lemma reverseAPIKeys_contains old new force k :
  contains (reverseAPIKeys old new force) k =
    (String.eqb k "loop" && loopChanged old new force)
    || (String.eqb k "fileName" && fileNameChanged old new force)
    || (String.eqb k "gainDB" && gainDBChanged old new force).
Proof.
  unfold reverseAPIKeys, contains.
  destruct (loopChanged old new force), (fileNameChanged old new force),
    (gainDBChanged old new force); cbn [app existsb];
    destruct (String.eqb k "loop"), (String.eqb k "fileName"), (String.eqb k "gainDB");
    reflexivity.
Qed.

(** X16.  The reverse-API request of applySettings: none is sent when the
    new settings have the reverse API off; otherwise exactly one is sent,
    to the address, port and indices of the new settings.  Its body holds
    gainDB when gainDB changed, and holds log2Interp, filterChainHash,
    rgbColor and title only on a forced or full update (reverse API just
    switched on, or its address, port or an index changed); a change of
    one of these four alone is not transmitted, and loop and fileName are
    never part of the body.  The stage count and the selector are in the
    body as the signed 32-bit values their setters hold. *)
Theorem applySettings_reverse_request
    (settings : FileSourceSettings) (force : bool) (st : FileSource) :
  let old := m_settings st in
  let full := fullUpdate old settings || force in
  sentRequests (applySettings powerFromdB settings force st) =
    sentRequests st ++
    (if m_useReverseAPI settings
     then [mkRequest (m_reverseAPIAddress settings) (m_reverseAPIPort settings)
             (m_reverseAPIDeviceIndex settings) (m_reverseAPIChannelIndex settings)
             1 "FileSource"
             (whenSet full (Int.signed32 (m_log2Interp settings)))
             (whenSet full (Int.signed32 (m_filterChainHash settings)))
             (whenSet (negb (m_gainDB old =? m_gainDB settings) || full)
                (m_gainDB settings))
             (whenSet full (m_rgbColor settings))
             (whenSet full (m_title settings))]
     else []).
Proof.
  cbv zeta. destruct st as [bb s cf fo sr g iq gq nr].
  unfold applySettings. cbn [m_settings].
  destruct (m_useReverseAPI settings).
  - destruct (gainDBChanged s settings force) eqn:Eg;
      cbn [sentRequests set_linearGain pushToBaseband set_basebandSource
           set_networkRequests set_settings m_basebandSource];
      unfold webapiReverseSendSettings;
      rewrite !reverseAPIKeys_contains, Eg;
      cbn [String.eqb Ascii.eqb Bool.eqb andb orb];
      unfold gainDBChanged in Eg;
      destruct (m_gainDB s =? m_gainDB settings), force;
      cbn in Eg; try discriminate Eg;
      rewrite ?orb_true_r, ?orb_false_r; reflexivity.
  - destruct (gainDBChanged s settings force); cbn; symmetry; apply app_nil_r.
Qed.

(** X17.  Applying again, without force, the settings that are already
    stored detects no change: the key list is empty and the linear gain
    is not recomputed.  The baseband source is still sent a configuration
    and, with the reverse API on, a request is still sent, with an empty
    body. *)
Theorem applySettings_again_is_quiet
    (settings : FileSourceSettings) (force : bool) (st : FileSource) :
  let st1 := applySettings powerFromdB settings force st in
  let st2 := applySettings powerFromdB settings false st1 in
  reverseAPIKeys (m_settings st1) settings false = []
  /\ m_linearGain st2 = m_linearGain st1
  /\ bb_inputMessageQueue (m_basebandSource st2) =
       bb_inputMessageQueue (m_basebandSource st1)
         ++ [Baseband_MsgConfigureFileSourceBaseband settings false]
  /\ sentRequests st2 =
       sentRequests st1 ++
       (if m_useReverseAPI settings
        then [mkRequest (m_reverseAPIAddress settings) (m_reverseAPIPort settings)
                (m_reverseAPIDeviceIndex settings) (m_reverseAPIChannelIndex settings)
                1 "FileSource" None None None None None]
        else []).
Proof.
  cbv zeta.
  assert (Hl : loopChanged settings settings false = false)
    by (unfold loopChanged; rewrite Bool.eqb_reflx; reflexivity).
  assert (Hf : fileNameChanged settings settings false = false)
    by (unfold fileNameChanged; rewrite String.eqb_refl; reflexivity).
  assert (Hg : gainDBChanged settings settings false = false)
    by (unfold gainDBChanged; rewrite Z.eqb_refl; reflexivity).
  assert (Hu : fullUpdate settings settings = false).
  { unfold fullUpdate. rewrite Bool.eqb_reflx, String.eqb_refl, !Z.eqb_refl.
    reflexivity. }
  assert (Hk : reverseAPIKeys settings settings false = [])
    by (unfold reverseAPIKeys; rewrite Hl, Hf, Hg; reflexivity).
  set (st1 := applySettings powerFromdB settings force st).
  assert (Hs : m_settings st1 = settings) by reflexivity.
  rewrite Hs. split; [exact Hk|].
  unfold applySettings at 1 2 3. rewrite Hs, Hg, Hk, Hu.
  destruct (m_useReverseAPI settings); cbn; repeat split; try reflexivity.
  symmetry; apply app_nil_r.
Qed.

(** X18.  A settings change does not recompute the frequency offset, even
    when it changes the stage count or the selector: the offset keeps its
    value until the next DSPSignalNotification, which computes it from
    the notified rate and the settings stored by then. *)
Theorem frequencyOffset_follows_at_next_notification
    (settings : FileSourceSettings) (force : bool) (R F : Z) (st : FileSource) :
  let configured :=
    snd (handleMessage powerFromdB storeOffset
           (MsgConfigureFileSource settings force) st) in
  let notified :=
    snd (handleMessage powerFromdB storeOffset (DSPSignalNotification R F) configured) in
  m_frequencyOffset configured = m_frequencyOffset st
  /\ m_frequencyOffset notified =
       storeOffset (inject_Z R *
                    HBFilterChainConverter.getShiftFactor
                      (m_log2Interp settings) (m_filterChainHash settings))%Q.
Proof.
  cbv zeta. cbn [handleMessage snd].
  destruct (applySettings_frame settings force st) as (_ & _ & Hfo & _ & _ & _).
  split; [exact Hfo|].
  set (configured := applySettings powerFromdB settings force st).
  assert (Hs : m_settings configured = settings) by reflexivity.
  destruct configured as [bb s cf fo sr g iq [q|] nr]; cbn in Hs; subst s;
    reflexivity.
Qed.

(** X19.  Restoring and then handling the message that deserialize
    queued: the stored settings stay the restored snapshot (the defaults
    after a failure), the linear gain is recomputed from the snapshot's
    gainDB because the message is forced, and the baseband source is sent
    the snapshot with the force flag. *)
Theorem deserialize_then_handle (data : list Byte.byte) (st : FileSource) :
  let restored := snd (deserialize settingsDeserialize resetToDefaults data st) in
  let msg := MsgConfigureFileSource (m_settings restored) true in
  let handled := snd (handleMessage powerFromdB storeOffset msg restored) in
  m_inputMessageQueue restored = m_inputMessageQueue st ++ [msg]
  /\ m_settings handled = m_settings restored
  /\ m_linearGain handled = powerFromdB (m_gainDB (m_settings restored))
  /\ bb_inputMessageQueue (m_basebandSource handled) =
       bb_inputMessageQueue (m_basebandSource st)
         ++ [Baseband_MsgConfigureFileSourceBaseband (m_settings restored) true].
Proof.
  cbv zeta. unfold deserialize.
  destruct (settingsDeserialize data (m_settings st)) as [restored ok].
  destruct st as [bb s cf fo sr g iq gq nr].
  assert (Hg : forall a b, gainDBChanged a b true = true)
    by (intros; unfold gainDBChanged; apply orb_true_r).
  destruct ok; cbn [snd handleMessage m_settings set_settings set_inputMessageQueue
                    m_inputMessageQueue];
    unfold applySettings; cbn [m_settings]; rewrite Hg;
    destruct (m_useReverseAPI _); cbn; repeat split; reflexivity.
Qed.

End FileSourceFurtherProperties.

(** ** The further properties at sample values *)

(** Two stages and the selector 9: clamped to 3^2 - 1. *)
Lemma validateFilterChainHash_exact_witness :
  0 <= m_log2Interp (set_filterChainHash sampleSettings 9) <= 20
  /\ m_filterChainHash (validateFilterChainHash (set_filterChainHash sampleSettings 9)) = 8.
Proof.
  assert (H : 0 <= m_log2Interp (set_filterChainHash sampleSettings 9) <= 20)
    by (simpl; lia).
  split; [exact H|].
  rewrite (validateFilterChainHash_exact (set_filterChainHash sampleSettings 9) H).
  reflexivity.
Defined.

(** Twenty-one stages: the validated selector is still below 3^21. *)
Lemma validateFilterChainHash_bound_witness :
  m_filterChainHash
    (validateFilterChainHash
       (set_filterChainHash (set_log2Interp sampleSettings 21) 2000000000))
  < 3 ^ 21.
Proof.
  apply (validateFilterChainHash_bound
           (set_filterChainHash (set_log2Interp sampleSettings 21) 2000000000)).
  simpl. lia.
Defined.

(** Twenty-one stages: the bound is 3^21 mod 2^32 - 1 = 1870418610. *)
Lemma validateFilterChainHash_min_witness :
  m_filterChainHash
    (validateFilterChainHash
       (set_filterChainHash (set_log2Interp sampleSettings 21) 2000000000))
  = Z.min 2000000000 (3 ^ 21 mod 2 ^ 32 - 1).
Proof.
  apply (validateFilterChainHash_min
           (set_filterChainHash (set_log2Interp sampleSettings 21) 2000000000)).
  simpl. lia.
Defined.

(** The keys loop and fileName are not keys of the update. *)
Lemma webapiUpdateChannelSettings_no_key_witness :
  webapiUpdateChannelSettings sampleSettings ["loop"; "fileName"]%string sampleResponse
    = sampleSettings.
Proof.
  apply (webapiUpdateChannelSettings_no_key sampleSettings
           ["loop"; "fileName"]%string sampleResponse).
  intros k H. simpl in H.
  repeat (destruct H as [H | H]; [subst k; reflexivity|]).
  contradiction.
Defined.

(** Stage count 1 and selector 7 in one request: the selector becomes 2. *)
Lemma webapiUpdateChannelSettings_validates_witness :
  m_filterChainHash
    (webapiUpdateChannelSettings sampleSettings
       ["filterChainHash"; "log2Interp"]%string sampleResponse)
  < 3 ^ m_log2Interp
          (webapiUpdateChannelSettings sampleSettings
             ["filterChainHash"; "log2Interp"]%string sampleResponse).
Proof.
  apply (webapiUpdateChannelSettings_validates sampleSettings
           ["filterChainHash"; "log2Interp"]%string sampleResponse).
  - reflexivity.
  - simpl. lia.
Defined.

(** Lowering the stage count to 1 alone keeps the selector 5, which is
    not below 3^1. *)
Lemma webapiUpdateChannelSettings_hash_untouched_witness :
  m_filterChainHash
    (webapiUpdateChannelSettings sampleSettings ["log2Interp"]%string sampleResponse)
  = m_filterChainHash sampleSettings
  /\ m_log2Interp
       (webapiUpdateChannelSettings sampleSettings ["log2Interp"]%string sampleResponse)
     = 1
  /\ 3 ^ 1 <= m_filterChainHash sampleSettings.
Proof.
  split; [|split; [reflexivity | simpl; lia]].
  apply (webapiUpdateChannelSettings_hash_untouched sampleSettings
           ["log2Interp"]%string sampleResponse).
  reflexivity.
Defined.

Lemma webapiFormatChannelSettings_update_roundtrip_witness :
  webapiUpdateChannelSettings editedSettings settingsKeys
      (webapiFormatChannelSettings sampleResponse sampleSettings)
    = set_loop (set_fileName sampleSettings (m_fileName editedSettings))
        (m_loop editedSettings).
Proof.
  apply (webapiFormatChannelSettings_update_roundtrip
           sampleSettings editedSettings sampleResponse); simpl; lia.
Defined.

(** 72000 samples at 48000 samples per second: 1500 milliseconds. *)
Lemma elapsed_whole_milliseconds_witness :
  exists t_sec t_msec,
    elapsed 72000 48000 = Some (t_sec, t_msec)
    /\ 1000 * t_sec + t_msec = 72000 * 1000 / 48000.
Proof.
  apply (elapsed_whole_milliseconds 72000 48000); lia.
Defined.

(** One day, one hour, one second and a half reads as 01:00:01.500. *)
Lemma elapsedTimeString_wraps_daily_witness :
  elapsedTimeString 90001 500 = QTime.toString_ms ((90001 mod 86400) * 1000 + 500)
  /\ QTime.toString_ms ((90001 mod 86400) * 1000 + 500) = "01:00:01.500"%string.
Proof.
  split; [|reflexivity].
  apply (elapsedTimeString_wraps_daily 90001 500); lia.
Defined.

(** A forced update with twenty stages and the selector 3000000000: the
    body holds the selector as the signed value -1294967296. *)
Example applySettings_reverse_request_signed :
  let settings :=
    set_filterChainHash (set_log2Interp reverseSettings 20) 3000000000 in
  map req_filterChainHash (sentRequests (applySettings sampleGain settings true reverseState))
  = [Some (-1294967296)].
Proof. reflexivity. Qed.
